(** * RecoveryPen AI backend: the three request handlers of [main.py]

    A shallow embedding of [src/main.py] and the properties of its
    request/response contract, and of the script
    [src/fix_requirements.py], which leaves a trace of what it prints,
    runs and opens, its child processes being a parameter.

    Conventions of the embedding.
    - A Python [str] is a list of Unicode code points ([list N]); string
      literals of the source are written with [lit].
    - Code that can raise runs in [result]; the calls on a python-docx
      [Document] thread the document through the state-and-error monad [M],
      and paragraphs and runs are handled through references, as the
      source mutates them after they were added.
    - What the handlers cannot decide is a parameter, [Env]: which file
      the operating system reaches for a path and whether it opens it,
      which texts the document library refuses, which bytes it reads as
      an image.  The stored files are a finite map from the files, not
      from the path strings, to their contents.
    - The remote completion service is a parameter of [generate_guide].
    - The document handed to [doc.save] stands for the bytes of the
      buffer; the response is kept by the arguments [StreamingResponse]
      was made from, after the encoding of the headers that its
      constructor does. *)

From Stdlib Require Import Strings.String Strings.Ascii Strings.Byte NArith ZArith Lia.
From stdpp Require Import base option list gmap.

Local Open Scope N_scope.

(** ** Python strings *)

Module Str.

Abbreviation char := N (only parsing).
Abbreviation str := (list N) (only parsing).

(** A literal of the source, character by character. *)
Definition lit (s : string) : str :=
  List.map N_of_ascii (list_ascii_of_string s).

(** [chr(10)] *)
Definition NL : N := 10.
Definition SPACE : N := 32.
Definition UNDERSCORE : N := 95.
Definition DASH : N := 45.
Definition SLASH : N := 47.

(** [str.isspace] on one code point: the white-space set that
    [str.strip()] without argument removes. *)
Definition is_space (c : N) : bool :=
  ((9 <=? c) && (c <=? 13)) || ((28 <=? c) && (c <=? 32))
  || (c =? 133) || (c =? 160) || (c =? 5760)
  || ((8192 <=? c) && (c <=? 8202))
  || (c =? 8232) || (c =? 8233) || (c =? 8239) || (c =? 8287)
  || (c =? 12288).

(** [s.lstrip()] *)
Fixpoint lstrip (s : str) : str :=
  match s with
  | [] => []
  | c :: s' => if is_space c then lstrip s' else s
  end.

(** [s.rstrip()] *)
Fixpoint rstrip (s : str) : str :=
  match s with
  | [] => []
  | c :: s' =>
      match rstrip s' with
      | [] => if is_space c then [] else [c]
      | t => c :: t
      end
  end.

(** [s.strip()] *)
Definition strip (s : str) : str := rstrip (lstrip s).

(** [s.split(sep)] for a one-character separator: never the empty list. *)
Fixpoint split (sep : N) (s : str) : list str :=
  match s with
  | [] => [[]]
  | c :: s' =>
      if c =? sep then [] :: split sep s'
      else match split sep s' with
           | [] => [[c]]
           | l :: ls => (c :: l) :: ls
           end
  end.

(** [sep.join(parts)] *)
Fixpoint join (sep : str) (parts : list str) : str :=
  match parts with
  | [] => []
  | [p] => p
  | p :: ps => p ++ sep ++ join sep ps
  end.

(** [s.startswith(prefix)] *)
Fixpoint startswith (s prefix : str) {struct prefix} : bool :=
  match prefix, s with
  | [], _ => true
  | _ :: _, [] => false
  | p :: prefix', c :: s' => (c =? p) && startswith s' prefix'
  end.

(** [s.endswith(suffix)] *)
Definition endswith (s suffix : str) : bool :=
  startswith (rev s) (rev suffix).

(** [s.replace(old, new)] for a one-character [old]. *)
Fixpoint replace (old : N) (new : str) (s : str) : str :=
  match s with
  | [] => []
  | c :: s' => (if c =? old then new else [c]) ++ replace old new s'
  end.

(** [needle in hay] *)
Fixpoint contains (hay needle : str) : bool :=
  startswith hay needle ||
  match hay with
  | [] => false
  | _ :: hay' => contains hay' needle
  end.

(** Truthiness of a string: [bool(s)]. *)
Definition truthy (s : str) : bool :=
  match s with [] => false | _ :: _ => true end.

(** The format of [Optional[str]] inside an f-string: [None] prints as
    the word. *)
Definition format_opt (o : option str) : str :=
  match o with
  | Some s => s
  | None => lit "None"
  end.

(** [needle] occurs in [hay]. *)
Definition Substring (needle hay : str) : Prop :=
  exists pre post, hay = pre ++ needle ++ post.

End Str.
Import Str.

(** ** Exceptions and results *)

(** An exception object, an instance of [Exception]: the name of its
    class and the string that [str(e)] gives. *)
Record exc := Exc { exc_class : str; exc_str : str }.

(** [str(e)] *)
Definition py_str (e : exc) : str := exc_str e.

Inductive result (A : Type) : Type :=
| Ok (a : A)
| Raise (e : exc).
Arguments Ok {A} a.
Arguments Raise {A} e.

(** [try: body except Exception as e: handler(e)] *)
Definition try_except {A} (body : result A) (handler : exc -> result A)
  : result A :=
  match body with
  | Ok a => Ok a
  | Raise e => handler e
  end.

Definition IndexError : exc :=
  Exc (lit "IndexError") (lit "list index out of range").

Notation "'let?' x := c 'in' k" :=
  (match c with Ok x => k | Raise e => Raise e end)
  (at level 10, x name, c at level 100, k at level 200).

(** [l[i]] *)
Definition getitem {A} (l : list A) (i : nat) : result A :=
  match l !! i with
  | Some a => Ok a
  | None => Raise IndexError
  end.

(** ** What the handlers cannot decide themselves *)

(** The operating system and the document library answer for these.  The
    handlers create and overwrite files and never make or remove a
    directory or change a permission, so which file a path reaches, and
    whether it may be read or written, does not change while they run. *)
Record Env := mkEnv {
  (** the file that [path] reaches, existing or still to be created, by
      one name per file, the one that [os.path.realpath] gives it;
      [None] when [path] reaches no file: a directory on the way is
      missing or is a file, [path] names a directory, or its name is
      refused *)
  locate : list N -> option (list N);
  (** [path] names a directory *)
  is_dir : list N -> bool;
  (** the process may open the file for reading *)
  may_read : list N -> bool;
  (** the process may create the file and open it for writing *)
  may_write : list N -> bool;
  (** the exception of an [open] that fails *)
  open_error : gmap (list N) (list byte) -> list N -> exc;
  (** the exception with which the document library refuses a text,
      [None] for a text that it takes *)
  text_error : list N -> option exc;
  (** the exception with which the document library refuses the bytes of
      an image, [None] for an image that it reads *)
  image_error : list byte -> option exc
}.

(** ** The file system and [os.path] *)

Module Os.

(** The stored files: their contents by the file, as [locate] names it.
    Two paths that reach one file have one entry. *)
Abbreviation filesystem := (gmap (list N) (list byte)).

(** [os.path.join(a, b)] of [posixpath]. *)
Definition path_join (a b : str) : str :=
  if startswith b (lit "/") then b
  else if negb (truthy a) || endswith a (lit "/") then a ++ b
  else a ++ lit "/" ++ b.

(** [os.path.exists(path)]: a directory, or a file that is stored. *)
Definition path_exists (env : Env) (fs : filesystem) (path : str) : bool :=
  is_dir env path ||
  match locate env path with
  | Some file =>
      match fs !! file with
      | Some _ => true
      | None => false
      end
  | None => false
  end.

(** The file that [open(path, "wb")] opens. *)
Definition writable (env : Env) (path : str) : option (list N) :=
  if is_dir env path then None
  else
    match locate env path with
    | Some file => if may_write env file then Some file else None
    | None => None
    end.

(** [open(path, "wb")]: the file that is opened, created or emptied. *)
Definition open_wb (env : Env) (fs : filesystem) (path : str)
  : result (list N) * filesystem :=
  match writable env path with
  | Some file => (Ok file, <[file:=[]]> fs)
  | None => (Raise (open_error env fs path), fs)
  end.

(** [buffer.write(data)] on the opened file *)
Definition write (fs : filesystem) (file : list N) (data : list byte)
  : filesystem :=
  alter (fun old => old ++ data) file fs.

(** [open(path, "rb").read()] *)
Definition read_file (env : Env) (fs : filesystem) (path : str)
  : result (list byte) :=
  if is_dir env path then Raise (open_error env fs path)
  else
    match locate env path with
    | Some file =>
        match fs !! file with
        | Some data =>
            if may_read env file then Ok data
            else Raise (open_error env fs path)
        | None => Raise (open_error env fs path)
        end
    | None => Raise (open_error env fs path)
    end.

End Os.

(** ** The python-docx document, as far as the handler drives it *)

Module Docx.

(** [WD_ALIGN_PARAGRAPH] *)
Inductive WD_ALIGN_PARAGRAPH := LEFT | CENTER | RIGHT | JUSTIFY.

(** [WD_BREAK] *)
Inductive WD_BREAK := LINE | PAGE | COLUMN.

(** Lengths are English Metric Units. *)
Definition Inches (n : Z) : Z := (n * 914400)%Z.
Definition Pt (n : Z) : Z := (n * 12700)%Z.

(** What a run holds, in document order: the text it was given, a break,
    a picture with the bytes of its image.  The library writes a tab or
    a line end inside a text as an element of its own; here the text
    stays as the handler gave it. *)
Inductive inline :=
| Text (s : str)
| Break (b : WD_BREAK)
| Picture (image : list byte) (width : Z).

Record Run := mkRun {
  r_content : list inline;
  r_bold : option bool;
  r_font_size : option Z
}.

Record Paragraph := mkParagraph {
  p_style : option str;
  p_alignment : option WD_ALIGN_PARAGRAPH;
  p_runs : list Run
}.

Record Section := mkSection {
  s_header : list Paragraph;
  s_footer : list Paragraph
}.

Record Document := mkDocument {
  d_body : list Paragraph;
  d_sections : list Section
}.

(** [Document()]: the default template has an empty body and one section,
    whose header and footer hold one empty paragraph each. *)
Definition new_Document : Document :=
  mkDocument []
    [mkSection [mkParagraph (Some (lit "Header")) None []]
               [mkParagraph (Some (lit "Footer")) None []]].

(** A paragraph object of the source is a reference into the document. *)
Inductive par_ref :=
| InBody (i : nat)
| InHeader (sec i : nat)
| InFooter (sec i : nat).

(** A run object: its paragraph and its position there. *)
Definition run_ref : Type := par_ref * nat.

(** *** State and errors *)

Definition M (A : Type) : Type := Document -> result (A * Document).

Definition ret {A} (a : A) : M A := fun d => Ok (a, d).

Definition bind {A B} (c : M A) (k : A -> M B) : M B :=
  fun d =>
    match c d with
    | Ok (a, d') => k a d'
    | Raise e => Raise e
    end.

Definition raise {A} (e : exc) : M A := fun _ => Raise e.

Definition lift {A} (r : result A) : M A :=
  fun d => match r with Ok a => Ok (a, d) | Raise e => Raise e end.

Definition get : M Document := fun d => Ok (d, d).
Definition put (d : Document) : M unit := fun _ => Ok (tt, d).

Notation "'let!' x := c 'in' k" := (bind c (fun x => k))
  (at level 10, x name, c at level 100, k at level 200).
Notation "'do!' c 'in' k" := (bind c (fun _ => k))
  (at level 10, c at level 100, k at level 200).

(** [for x in xs: body(x)] *)
Fixpoint for_ {A} (xs : list A) (body : A -> M unit) : M unit :=
  match xs with
  | [] => ret tt
  | x :: xs' => do! body x in for_ xs' body
  end.

(** [if c: body] *)
Definition when (c : bool) (body : M unit) : M unit :=
  if c then body else ret tt.

Definition ignore {A} (c : M A) : M unit := do! c in ret tt.

(** *** Reading and writing through a reference *)

Definition ReferenceError : exc :=
  Exc (lit "ReferenceError") (lit "paragraph is not in the document").

Definition read_par (p : par_ref) : M Paragraph :=
  let! d := get in
  match p with
  | InBody i =>
      match d_body d !! i with
      | Some x => ret x
      | None => raise ReferenceError
      end
  | InHeader sec i =>
      match d_sections d !! sec with
      | Some s =>
          match s_header s !! i with
          | Some x => ret x
          | None => raise ReferenceError
          end
      | None => raise ReferenceError
      end
  | InFooter sec i =>
      match d_sections d !! sec with
      | Some s =>
          match s_footer s !! i with
          | Some x => ret x
          | None => raise ReferenceError
          end
      | None => raise ReferenceError
      end
  end.

Definition write_par (p : par_ref) (x : Paragraph) : M unit :=
  let! d := get in
  match p with
  | InBody i => put (mkDocument (<[i:=x]> (d_body d)) (d_sections d))
  | InHeader sec i =>
      match d_sections d !! sec with
      | Some s =>
          put (mkDocument (d_body d)
                 (<[sec:=mkSection (<[i:=x]> (s_header s)) (s_footer s)]>
                    (d_sections d)))
      | None => raise ReferenceError
      end
  | InFooter sec i =>
      match d_sections d !! sec with
      | Some s =>
          put (mkDocument (d_body d)
                 (<[sec:=mkSection (s_header s) (<[i:=x]> (s_footer s))]>
                    (d_sections d)))
      | None => raise ReferenceError
      end
  end.

Definition modify_par (p : par_ref) (f : Paragraph -> Paragraph) : M unit :=
  let! x := read_par p in write_par p (f x).

Definition modify_run (r : run_ref) (f : Run -> Run) : M unit :=
  let! x := read_par (fst r) in
  match p_runs x !! snd r with
  | Some y =>
      write_par (fst r)
        (mkParagraph (p_style x) (p_alignment x) (<[snd r:=f y]> (p_runs x)))
  | None => raise ReferenceError
  end.

(** *** The calls of the library that the handler makes *)

(** [paragraph.style = style] *)
Definition set_style (p : par_ref) (style : str) : M unit :=
  modify_par p (fun x => mkParagraph (Some style) (p_alignment x) (p_runs x)).

(** [paragraph.alignment = a] *)
Definition set_alignment (p : par_ref) (a : WD_ALIGN_PARAGRAPH) : M unit :=
  modify_par p (fun x => mkParagraph (p_style x) (Some a) (p_runs x)).

(** [run.font.size = size] *)
Definition set_font_size (r : run_ref) (size : Z) : M unit :=
  modify_run r (fun y => mkRun (r_content y) (r_bold y) (Some size)).

(** [run.bold = b] *)
Definition set_bold (r : run_ref) (b : bool) : M unit :=
  modify_run r (fun y => mkRun (r_content y) (Some b) (r_font_size y)).

(** [run.add_break(b)] *)
Definition add_break (r : run_ref) (b : WD_BREAK) : M unit :=
  modify_run r (fun y => mkRun (r_content y ++ [Break b]) (r_bold y) (r_font_size y)).

Definition ValueError (msg : str) : exc := Exc (lit "ValueError") msg.

(** ["%d" % level] for a level of one digit. *)
Definition digit (level : Z) : str := [Z.to_N (48 + level)].

(** [doc.sections[0]] *)
Definition sections_0 : M nat :=
  let! d := get in
  let! _ := lift (getitem (d_sections d) 0) in
  ret 0%nat.

(** [section.header.paragraphs[0]] *)
Definition header_paragraphs_0 (sec : nat) : M par_ref :=
  let! d := get in
  let! s := lift (getitem (d_sections d) sec) in
  let! _ := lift (getitem (s_header s) 0) in
  ret (InHeader sec 0).

(** [section.footer.paragraphs[0]] *)
Definition footer_paragraphs_0 (sec : nat) : M par_ref :=
  let! d := get in
  let! s := lift (getitem (d_sections d) sec) in
  let! _ := lift (getitem (s_footer s) 0) in
  ret (InFooter sec 0).

Section Library.

Variable env : Env.

(** [run.text = text]: the library takes the text or refuses it; the
    text replaces what the run held. *)
Definition set_run_text (r : run_ref) (text : str) : M unit :=
  match text_error env text with
  | Some e => raise e
  | None => modify_run r (fun y => mkRun [Text text] (r_bold y) (r_font_size y))
  end.

(** [paragraph.add_run(text)]: a new last run; its text is set only when
    the text is truthy. *)
Definition add_run (p : par_ref) (text : str) : M run_ref :=
  let! x := read_par p in
  do! write_par p
        (mkParagraph (p_style x) (p_alignment x)
           (p_runs x ++ [mkRun [] None None])) in
  let r := (p, length (p_runs x)) in
  do! when (truthy text) (set_run_text r text) in
  ret r.

(** [paragraph.text = text]: the content is cleared, then one run added. *)
Definition set_text (p : par_ref) (text : str) : M unit :=
  do! modify_par p (fun x => mkParagraph (p_style x) (p_alignment x) []) in
  ignore (add_run p text).

(** [doc.add_paragraph(text, style)]: a new last paragraph of the body; a
    run is added only for a truthy text, the style set only when given. *)
Definition add_paragraph (text : str) (style : option str) : M par_ref :=
  let! d := get in
  do! put (mkDocument (d_body d ++ [mkParagraph None None []])
             (d_sections d)) in
  let p := InBody (length (d_body d)) in
  do! when (truthy text) (ignore (add_run p text)) in
  do! match style with
      | Some s => set_style p s
      | None => ret tt
      end in
  ret p.

(** [doc.add_heading(text, level)] *)
Definition add_heading (text : str) (level : Z) : M par_ref :=
  if ((0 <=? level) && (level <=? 9))%Z then
    add_paragraph text
      (Some (if (level =? 0)%Z then lit "Title" else lit "Heading " ++ digit level))
  else raise (ValueError (lit "level must be in range 0-9")).

(** [doc.add_page_break()] *)
Definition add_page_break : M par_ref :=
  let! p := add_paragraph [] None in
  let! r := add_run p [] in
  do! add_break r PAGE in
  ret p.

(** [run.add_picture(path, width)]: the file is opened and read, and the
    library reads its bytes as an image or refuses them. *)
Definition run_add_picture (fs : Os.filesystem) (r : run_ref)
    (path : str) (width : Z) : M unit :=
  let! image := lift (Os.read_file env fs path) in
  match image_error env image with
  | Some e => raise e
  | None =>
      modify_run r (fun y =>
        mkRun (r_content y ++ [Picture image width]) (r_bold y) (r_font_size y))
  end.

(** [doc.add_picture(path, width=width)] *)
Definition add_picture (fs : Os.filesystem) (path : str) (width : Z)
  : M unit :=
  let! p := add_paragraph [] None in
  let! r := add_run p [] in
  run_add_picture fs r path width.

End Library.

End Docx.

Import Docx.

(** ** Request bodies and the models that validate them *)

(** A JSON value, as far as the request and response bodies use it. *)
#[warnings="-register-all"]
Inductive json :=
| JNull
| JStr (s : str)
| JArr (l : list json).

Definition UPLOAD_FOLDER : str := lit "./docs".
Definition STATIC_FOLDER : str := lit "./static".

Record GuideRequest := mkGuideRequest {
  g_topic : str;
  g_objectives : list str;
  g_tone : option str;
  g_format : option str
}.

Record DocxRequest := mkDocxRequest {
  topic : str;
  objectives : list str;
  guide : str;
  upload_summary : option str
}.

Definition ValidationError (field : str) : exc :=
  Exc (lit "ValidationError") field.

(** A required field of type [str]. *)
Definition field_str (body : gmap (list N) json) (name : str) : result str :=
  match body !! name with
  | Some (JStr s) => Ok s
  | _ => Raise (ValidationError name)
  end.

(** The items of a [List[str]]. *)
Fixpoint items_str (name : str) (l : list json) : result (list str) :=
  match l with
  | [] => Ok []
  | JStr s :: l' => let? r := items_str name l' in Ok (s :: r)
  | _ :: _ => Raise (ValidationError name)
  end.

(** A required field of type [List[str]]. *)
Definition field_list_str (body : gmap (list N) json) (name : str)
  : result (list str) :=
  match body !! name with
  | Some (JArr l) => items_str name l
  | _ => Raise (ValidationError name)
  end.

(** A field [Optional[str] = default]: the default when the key is
    missing, [None] for an explicit null. *)
Definition field_opt_str (body : gmap (list N) json) (name : str)
    (default : option str) : result (option str) :=
  match body !! name with
  | None => Ok default
  | Some JNull => Ok None
  | Some (JStr s) => Ok (Some s)
  | Some (JArr _) => Raise (ValidationError name)
  end.

(** The class [GuideRequest]: [topic: str] and [objectives: List[str]]
    are declared without a default, [tone] and [format] with one.  This
    is what the validation of a request body against the class gives. *)
Definition parse_GuideRequest (body : gmap (list N) json)
  : result GuideRequest :=
  let? t := field_str body (lit "topic") in
  let? o := field_list_str body (lit "objectives") in
  let? tone := field_opt_str body (lit "tone") (Some (lit "Empowering")) in
  let? format := field_opt_str body (lit "format") (Some (lit "group")) in
  Ok (mkGuideRequest t o tone format).

(** The class [DocxRequest], whose only default is [upload_summary =
    None]. *)
Definition parse_DocxRequest (body : gmap (list N) json)
  : result DocxRequest :=
  let? t := field_str body (lit "topic") in
  let? o := field_list_str body (lit "objectives") in
  let? g := field_str body (lit "guide") in
  let? u := field_opt_str body (lit "upload_summary") None in
  Ok (mkDocxRequest t o g u).

(** The status the framework answers with: 200 for a returned value, 500
    for an exception that leaves the handler. *)
Definition status_code {A} (r : result A) : Z :=
  match r with
  | Ok _ => 200
  | Raise _ => 500
  end.

(** ** Endpoint [/generate-guide] *)

Record message_param := mkMessage { role : str; content : str }.

(** The keyword arguments of [openai.chat.completions.create]; the
    temperature in tenths. *)
Record completion_args := mkArgs {
  model : str;
  messages : list message_param;
  temperature_tenths : Z;
  max_tokens : Z
}.

Record ChatCompletionMessage := mkChatMessage { m_content : option str }.
Record Choice := mkChoice { message : ChatCompletionMessage }.
Record ChatCompletion := mkCompletion { choices : list Choice }.

(** The f-string of [generate_guide]. *)
Definition prompt_of (request : GuideRequest) : str :=
  lit "You are RecoveryPen AI, a trauma-informed assistant. Create a comprehensive, group-ready recovery guide on:

Topic: " ++ g_topic request ++ lit "

Objectives:
" ++ join [NL] (List.map (fun obj => lit "- " ++ obj) (g_objectives request)) ++ lit "

Tone: " ++ format_opt (g_tone request) ++ lit "
Format: " ++ format_opt (g_format request) ++ lit "

The guide should include:
- Clear headings and sections
- Practical strategies
- Realistic examples
- Bullet points and group discussion prompts
- Closing summary

Begin now.
".

Definition json_of_opt (o : option str) : json :=
  match o with
  | Some s => JStr s
  | None => JNull
  end.

Section GenerateGuide.

(** [openai.chat.completions.create]: the remote service answers or the
    call raises. *)
Variable create : completion_args -> result ChatCompletion.

Definition generate_guide (request : GuideRequest)
  : result (gmap (list N) json) :=
  let prompt := prompt_of request in
  try_except
    (let? response :=
       create (mkArgs (lit "gpt-4-turbo") [mkMessage (lit "user") prompt]
                 7 2000) in
     let? choice := getitem (choices response) 0 in
     let guide_text := m_content (message choice) in
     Ok {[ lit "guide" := json_of_opt guide_text ]})
    (fun e =>
       Ok (<[ lit "guide" := JStr [] ]>
             {[ lit "error" := JStr (py_str e) ]})).

End GenerateGuide.

(** ** Endpoint [/upload-doc] *)

Record UploadFile := mkUploadFile {
  filename : str;
  file_bytes : list byte
}.

(** [await file.read()] *)
Definition read (file : UploadFile) : list byte := file_bytes file.


(** The handler: the path is opened for writing first; when that raises
    nothing is written and the exception leaves the handler. *)
Definition upload_doc (env : Env) (fs : Os.filesystem) (file : UploadFile)
  : Os.filesystem * result (gmap (list N) json) :=
  let file_path := Os.path_join UPLOAD_FOLDER (filename file) in
  match Os.open_wb env fs file_path with
  | (Ok buffer, fs) =>
      let fs := Os.write fs buffer (read file) in
      let summary :=
        lit "File '" ++ filename file ++
        lit "' uploaded and indexed. It will be used to enhance AI-guided generation." in
      (fs, Ok (<[ lit "message" := JStr (lit "Upload complete.") ]>
                 {[ lit "summary" := JStr summary ]}))
  | (Raise e, fs) => (fs, Raise e)
  end.

(** ** Endpoint [/generate-docx] *)

Definition UnicodeEncodeError : exc :=
  Exc (lit "UnicodeEncodeError")
    (lit "'latin-1' codec can't encode character: ordinal not in range(256)").

(** [s.encode("latin-1")] *)
Fixpoint encode_latin1 (s : str) : result (list byte) :=
  match s with
  | [] => Ok []
  | c :: s' =>
      match Byte.of_N c with
      | Some b => let? bytes := encode_latin1 s' in Ok (b :: bytes)
      | None => Raise UnicodeEncodeError
      end
  end.

(** The headers as the constructor of a response encodes them. *)
Fixpoint encode_headers (headers : list (str * str))
  : result (list (list byte * list byte)) :=
  match headers with
  | [] => Ok []
  | (name, value) :: headers' =>
      let? n := encode_latin1 name in
      let? v := encode_latin1 value in
      let? rest := encode_headers headers' in
      Ok ((n, v) :: rest)
  end.

Record StreamingResponse := mkStreamingResponse {
  sr_content : Document;
  sr_media_type : str;
  sr_headers : list (str * str)
}.

(** [StreamingResponse(content, media_type=media_type, headers=headers)]:
    the constructor encodes the headers and raises where it cannot. *)
Definition new_StreamingResponse (content : Document) (media_type : str)
    (headers : list (str * str)) : result StreamingResponse :=
  let? _ := encode_headers headers in
  Ok (mkStreamingResponse content media_type headers).

Section GenerateDocx.

Variable env : Env.

(** [# === Cover Page with Logo ===] *)
Definition cover_page (fs : Os.filesystem) : M unit :=
  let logo_path := Os.path_join STATIC_FOLDER (lit "logo.png") in
  do! when (Os.path_exists env fs logo_path)
        (add_picture env fs logo_path (Inches 2)) in

  let! cover := add_paragraph env [] None in
  do! set_alignment cover CENTER in
  let! run := add_run env cover
                (lit "RecoveryPen AI" ++ [NL] ++
                 lit "Trauma-Informed Companion" ++ [NL; NL]) in
  do! set_font_size run (Pt 20) in
  do! set_bold run true in
  ignore (add_page_break env).

(** [# === Header/Footer Branding ===] *)
Definition branding : M unit :=
  let! section := sections_0 in
  let! header := header_paragraphs_0 section in
  do! set_text env header (lit "RecoveryPen AI | Trauma-Informed Companion") in
  do! set_alignment header CENTER in

  let! footer := footer_paragraphs_0 section in
  do! set_text env footer (lit "Page - ") in
  set_alignment footer CENTER.

(** [# === Main Guide Content ===] *)
Definition main_content (request : DocxRequest) : M unit :=
  let! _ := add_heading env (topic request) 1 in

  let! _ := add_heading env (lit "Objectives") 2 in
  do! for_ (objectives request) (fun obj =>
        ignore (add_paragraph env (lit "- " ++ obj)
                  (Some (lit "List Bullet")))) in

  let! _ := add_heading env (lit "Recovery Guide") 2 in
  for_ (split NL (guide request)) (fun line =>
    if bool_decide (strip line = lit "") then
      ignore (add_paragraph env [] None)
    else if startswith (strip line) (lit "-") then
      ignore (add_paragraph env (strip line) (Some (lit "List Bullet")))
    else
      ignore (add_paragraph env (strip line) None)).

(** [# === Upload Summary ===]: the test is the truthiness of an
    [Optional[str]]. *)
Definition summary_section (request : DocxRequest) : M unit :=
  match upload_summary request with
  | Some summary =>
      when (truthy summary)
        (let! _ := add_heading env (lit "Upload Summary") 2 in
         ignore (add_paragraph env summary None))
  | None => ret tt
  end.

(** The calls on [doc], in the order of the source. *)
Definition assemble (fs : Os.filesystem) (request : DocxRequest) : M unit :=
  do! cover_page fs in
  do! branding in
  do! main_content request in
  summary_section request.

(** [# === Stream back as DOCX ===]: the saved document stands for the
    bytes of the buffer. *)
Definition generate_docx (fs : Os.filesystem) (request : DocxRequest)
  : result StreamingResponse :=
  let? r := assemble fs request new_Document in
  let doc := snd r in
  new_StreamingResponse doc
    (lit "application/vnd.openxmlformats-officedocument.wordprocessingml.document")
    [(lit "Content-Disposition",
      lit "attachment; filename=" ++
      replace SPACE (lit "_") (topic request) ++
      lit "_Recovery_Guide.docx")].

End GenerateDocx.

(** ** The document in the words of the specification *)

Module Spec.

(** The runs of a paragraph made from [text]. *)
Definition text_runs (text : str) : list Run :=
  if truthy text then [mkRun [Text text] None None] else [].

Definition blank_paragraph : Paragraph := mkParagraph None None [].

Definition plain_paragraph (text : str) : Paragraph :=
  mkParagraph None None (text_runs text).

Definition bulleted_paragraph (text : str) : Paragraph :=
  mkParagraph (Some (lit "List Bullet")) None (text_runs text).

Definition heading (level : Z) (text : str) : Paragraph :=
  mkParagraph (Some (lit "Heading " ++ digit level)) None (text_runs text).

Definition logo_path : str := lit "./static/logo.png".

(** The logo, two inches wide. *)
Definition logo_paragraph (image : list byte) : Paragraph :=
  mkParagraph None None [mkRun [Picture image 1828800] None None].

Definition title_text : str :=
  lit "RecoveryPen AI" ++ [NL] ++ lit "Trauma-Informed Companion" ++ [NL; NL].

(** The title block: centered, bold, 20 points. *)
Definition title_block : Paragraph :=
  mkParagraph None (Some CENTER)
    [mkRun [Text title_text] (Some true) (Some 254000%Z)].

Definition page_break : Paragraph :=
  mkParagraph None None [mkRun [Break PAGE] None None].

Definition header_text : str :=
  lit "RecoveryPen AI | Trauma-Informed Companion".

Definition footer_text : str := lit "Page - ".

(** The one section, its header and footer branded and centered. *)
Definition branded_sections : list Section :=
  [mkSection
     [mkParagraph (Some (lit "Header")) (Some CENTER)
        [mkRun [Text header_text] None None]]
     [mkParagraph (Some (lit "Footer")) (Some CENTER)
        [mkRun [Text footer_text] None None]]].

(** One line of the guide: blank, bulleted or plain. *)
Definition classify_line (line : str) : Paragraph :=
  match strip line with
  | [] => blank_paragraph
  | c :: t =>
      if c =? DASH then bulleted_paragraph (c :: t)
      else plain_paragraph (c :: t)
  end.

(** The logo, when there is one: its paragraph, or the exception of a
    file that cannot be read as an image. *)
Definition logo_part (env : Env) (fs : Os.filesystem)
  : result (list Paragraph) :=
  if Os.path_exists env fs logo_path then
    let? image := Os.read_file env fs logo_path in
    match image_error env image with
    | Some e => Raise e
    | None => Ok [logo_paragraph image]
    end
  else Ok [].

(** The paragraphs of the logo in a document that was assembled. *)
Definition logo_paragraphs (env : Env) (fs : Os.filesystem)
  : list Paragraph :=
  match logo_part env fs with
  | Ok paragraphs => paragraphs
  | Raise _ => []
  end.

Definition objectives_part (request : DocxRequest) : list Paragraph :=
  heading 1 (topic request) :: heading 2 (lit "Objectives") ::
  List.map (fun obj => bulleted_paragraph (lit "- " ++ obj))
    (objectives request).

Definition guide_part (request : DocxRequest) : list Paragraph :=
  heading 2 (lit "Recovery Guide") ::
  List.map classify_line (split NL (guide request)).

Definition summary_part (request : DocxRequest) : list Paragraph :=
  match upload_summary request with
  | Some (c :: t) =>
      [heading 2 (lit "Upload Summary"); plain_paragraph (c :: t)]
  | _ => []
  end.

Definition document_of (logo : list Paragraph) (request : DocxRequest)
  : Document :=
  mkDocument
    (logo ++ [title_block; page_break] ++ objectives_part request
     ++ guide_part request ++ summary_part request)
    branded_sections.

(** The attachment name: spaces to underscores, then the suffix. *)
Definition attachment_filename (topic : str) : str :=
  List.map (fun c => if c =? SPACE then UNDERSCORE else c) topic
  ++ lit "_Recovery_Guide.docx".

Definition media_type : str :=
  lit "application/vnd.openxmlformats-officedocument.wordprocessingml.document".

Definition response_of (logo : list Paragraph) (request : DocxRequest)
  : StreamingResponse :=
  mkStreamingResponse (document_of logo request) media_type
    [(lit "Content-Disposition",
      lit "attachment; filename=" ++ attachment_filename (topic request))].

(** The texts that the handler gives to the document library, in the
    order in which it gives them. *)
Definition texts (request : DocxRequest) : list str :=
  [title_text; header_text; footer_text; topic request; lit "Objectives"]
  ++ List.map (fun obj => lit "- " ++ obj) (objectives request)
  ++ [lit "Recovery Guide"]
  ++ List.map strip (split NL (guide request))
  ++ match upload_summary request with
     | Some (c :: t) => [lit "Upload Summary"; c :: t]
     | _ => []
     end.

(** The exception of the first text that the library refuses; a text
    that is empty is not given to it. *)
Fixpoint refusal (env : Env) (texts : list str) : option exc :=
  match texts with
  | [] => None
  | text :: texts' =>
      match (if truthy text then text_error env text else None) with
      | Some e => Some e
      | None => refusal env texts'
      end
  end.

(** Paragraphs put at the end of the body. *)
Definition append_body (paragraphs : list Paragraph) (d : Document)
  : Document :=
  mkDocument (d_body d ++ paragraphs) (d_sections d).

(** A part of the assembly, by the texts it gives to the library and by
    what it makes of the document when all of them are taken. *)
Definition perform (env : Env) (texts : list str)
    (f : Document -> Document) : M unit :=
  fun d =>
    match refusal env texts with
    | Some e => Raise e
    | None => Ok (tt, f d)
    end.

(** Every character has a place in Latin-1. *)
Definition latin1 (s : str) : bool := forallb (fun c => c <? 256) s.

(** The requests whose document is assembled: a logo that exists is
    read as an image, and every text is taken. *)
Definition assembled (env : Env) (fs : Os.filesystem) (request : DocxRequest)
  : bool :=
  match logo_part env fs, refusal env (texts request) with
  | Ok _, None => true
  | _, _ => false
  end.

(** The requests that get a response: the document is assembled and the
    topic can be written in Latin-1. *)
Definition accepted (env : Env) (fs : Os.filesystem) (request : DocxRequest)
  : bool :=
  assembled env fs request && latin1 (topic request).




(** The body of the answer to an upload. *)
Definition upload_response (name : str) : gmap (list N) json :=
  <[ lit "message" := JStr (lit "Upload complete.") ]>
    {[ lit "summary" :=
         JStr (lit "File '" ++ name ++
               lit "' uploaded and indexed. It will be used to enhance AI-guided generation.") ]}.


End Spec.

(** ** A host to run the handlers on *)

Module Posix.

(** Directories at fixed places, by their names from the root, and no
    links: the working directory of the service with its two folders. *)
Definition cwd : list str := [lit "srv"; lit "app"].

Definition dirs : list (list str) :=
  [[]; [lit "srv"]; cwd; cwd ++ [lit "docs"]; cwd ++ [lit "static"];
   [lit "tmp"]].

Definition is_directory (d : list str) : bool :=
  existsb (fun x => bool_decide (x = d)) dirs.

(** One name of a path, from the directory [cur]. *)
Definition enter (cur : list str) (name : str) : option (list str) :=
  if bool_decide (name = lit "") || bool_decide (name = lit ".") then Some cur
  else if bool_decide (name = lit "..") then Some (List.removelast cur)
  else if is_directory (cur ++ [name]) then Some (cur ++ [name])
  else None.

Fixpoint walk (cur : list str) (names : list str) : option (list str) :=
  match names with
  | [] => Some cur
  | name :: names' =>
      match enter cur name with
      | Some next => walk next names'
      | None => None
      end
  end.

Definition start (path : str) : list str :=
  if startswith path (lit "/") then [] else cwd.

(** A path that the system takes: not empty, without the character 0. *)
Definition well_formed (path : str) : bool :=
  truthy path && negb (existsb (N.eqb 0) path).

Definition is_dir (path : str) : bool :=
  well_formed path &&
  match walk (start path) (split SLASH path) with
  | Some _ => true
  | None => false
  end.

(** The name of a file from the root. *)
Definition realname (d : list str) (name : str) : str :=
  flat_map (fun n => SLASH :: n) (d ++ [name]).

Definition locate (path : str) : option str :=
  if well_formed path then
    let names := split SLASH path in
    let name := List.last names [] in
    match walk (start path) (List.removelast names) with
    | Some d =>
        if bool_decide (name = lit "") || bool_decide (name = lit ".")
           || bool_decide (name = lit "..") || is_directory (d ++ [name])
        then None
        else Some (realname d name)
    | None => None
    end
  else None.

End Posix.

(** ** Concrete requests *)

Module Examples.

(** An image of one pixel, as a PNG file. *)
Definition tiny_png : list byte :=
  [x89; x50; x4e; x47; x0d; x0a; x1a; x0a; x00; x00; x00; x0d; x49; x48;
   x44; x52; x00; x00; x00; x01; x00; x00; x00; x01; x08; x06; x00; x00;
   x00; x1f; x15; xc4; x89; x00; x00; x00; x0d; x49; x44; x41; x54; x78;
   xda; x63; x64; x60; xf8; x5f; x0f; x00; x02; x87; x01; x80; xeb; x47;
   xba; x92; x00; x00; x00; x00; x49; x45; x4e; x44; xae; x42; x60; x82].

Fixpoint same_bytes (a b : list byte) : bool :=
  match a, b with
  | [], [] => true
  | x :: a', y :: b' => Byte.eqb x y && same_bytes a' b'
  | _, _ => false
  end.

(** A character that XML has no place for: a control character other
    than tab, newline and carriage return, a surrogate, U+FFFE or
    U+FFFF. *)
Definition xml_invalid (c : N) : bool :=
  ((c <? 32) && negb ((c =? 9) || (c =? 10) || (c =? 13)))
  || ((55296 <=? c) && (c <=? 57343))
  || (c =? 65534) || (c =? 65535).

(** A host: the directories of [Posix], every file open to the process,
    and a document library that refuses the texts with a character that
    XML has no place for and reads the one image [tiny_png]. *)
Definition host : Env :=
  mkEnv Posix.locate Posix.is_dir (fun _ => true) (fun _ => true)
    (fun _ _ => Exc (lit "OSError") (lit "cannot open the file"))
    (fun text =>
       if existsb xml_invalid text
       then Some (ValueError (lit "All strings must be XML compatible"))
       else None)
    (fun image =>
       if same_bytes image tiny_png then None
       else Some (Exc (lit "UnrecognizedImageError") (lit ""))).

Definition plan_request : DocxRequest :=
  mkDocxRequest (lit "My Plan") [lit "Breathe"] (lit "- Step one")
    (Some (lit "notes")).

(** Tab, slash, the two quotes and the backslash. *)
Definition odd_topic_request : DocxRequest :=
  mkDocxRequest [9; 47; 34; 39; 92] [] [] None.

(** A topic with an en dash, U+2013. *)
Definition dash_topic : str := [80; 8211; 81].

(** The guide of the specification. *)
Definition intro_guide : str := lit "Intro

- Step one
Step two".

(** A service that refuses the call. *)
Definition failing_create (_ : completion_args) : result ChatCompletion :=
  Raise (Exc (lit "RateLimitError") (lit "quota exceeded")).

Definition stress_request : GuideRequest :=
  mkGuideRequest (lit "Stress") [lit "Breathe"; lit "Reflect"]
    (Some (lit "Calm")) (Some (lit "solo")).

Definition minimal_body : gmap (list N) json :=
  <[ lit "topic" := JStr (lit "Stress") ]>
    {[ lit "objectives" := JArr [JStr (lit "Breathe")] ]}.

Definition notes_txt : UploadFile :=
  mkUploadFile (lit "notes.txt") [x61; x62; x63].

(** The stored files with a logo. *)
Definition with_logo : Os.filesystem :=
  {[ lit "/srv/app/static/logo.png" := tiny_png ]}.

(** The stored files with a logo file that is no image. *)
Definition broken_logo : Os.filesystem :=
  {[ lit "/srv/app/static/logo.png" := [x61; x62; x63] ]}.

(** A text with the control character U+0001 in it. *)
Definition control_text : str := [65; 1; 66].

End Examples.
Import Examples.
(** ** What the responses and documents show *)

Module View.

(** The characters of a text item; a break or a picture has none. *)
Definition inline_text (i : inline) : str :=
  match i with
  | Text s => s
  | _ => []
  end.

Definition run_text (r : Run) : str := flat_map inline_text (r_content r).

(** The text of a paragraph: the texts that its runs were given, one
    after the other. *)
Definition paragraph_text (p : Paragraph) : str :=
  flat_map run_text (p_runs p).

(** [s.count(c)] for one character. *)
Definition count (c : N) (s : str) : nat := count_occ N.eq_dec s c.

(** The path the upload of [name] is written to. *)
Definition upload_path_of (name : str) : str :=
  Os.path_join UPLOAD_FOLDER name.

(** The body of a request, field by field. *)
Definition body_of_GuideRequest (r : GuideRequest) : gmap (list N) json :=
  <[ lit "topic" := JStr (g_topic r) ]>
  (<[ lit "objectives" := JArr (List.map JStr (g_objectives r)) ]>
   (<[ lit "tone" := json_of_opt (g_tone r) ]>
    {[ lit "format" := json_of_opt (g_format r) ]})).

Definition body_of_DocxRequest (r : DocxRequest) : gmap (list N) json :=
  <[ lit "topic" := JStr (topic r) ]>
  (<[ lit "objectives" := JArr (List.map JStr (objectives r)) ]>
   (<[ lit "guide" := JStr (guide r) ]>
    {[ lit "upload_summary" := json_of_opt (upload_summary r) ]})).

End View.

(** ** The script [fix_requirements.py] *)

Module Script.

(** What the script does to the world around it, in order. *)
Inductive event :=
| Printed (line : str)
| Ran (argv : list str) (stdout : option str)
| Opened (path : str)
| Closed (path : str).

(** A step of the script: it may raise, and what it did before stays
    done. *)
Definition T (A : Type) : Type := list event -> result A * list event.

Definition ret {A} (a : A) : T A := fun trace => (Ok a, trace).

Definition bind {A B} (c : T A) (k : A -> T B) : T B :=
  fun trace =>
    match c trace with
    | (Ok a, trace') => k a trace'
    | (Raise e, trace') => (Raise e, trace')
    end.

Notation "'do*' c 'in' k" := (bind c (fun _ => k))
  (at level 10, c at level 100, k at level 200).

(** [print(line)] *)
Definition print (line : str) : T unit :=
  fun trace => (Ok tt, trace ++ [Printed line]).

Definition CalledProcessError : exc :=
  Exc (lit "CalledProcessError") (lit "Command returned non-zero exit status.").

(** [with open(path, "w") as f: body]: the file is closed when the body
    is left, also when it raises. *)
Definition with_open_w (path : str) (body : T unit) : T unit :=
  fun trace =>
    let r := body (trace ++ [Opened path]) in
    (fst r, snd r ++ [Closed path]).

Section Run.

(** [sys.executable] *)
Variable executable : str.

(** The child process of a command: its return code, or the exception of
    a command that could not be started. *)
Variable spawn : list str -> result Z.

(** [subprocess.run(argv, stdout=f, check=True)] *)
Definition subprocess_run (argv : list str) (stdout : option str) : T unit :=
  fun trace =>
    let trace := trace ++ [Ran argv stdout] in
    match spawn argv with
    | Ok returncode =>
        if (returncode =? 0)%Z then (Ok tt, trace)
        else (Raise CalledProcessError, trace)
    | Raise e => (Raise e, trace)
    end.

Definition fix_requirements : T unit :=
  let venv_dir := lit "venv-fix" in
  let python_exe :=
    Os.path_join (Os.path_join venv_dir (lit "Scripts")) (lit "python.exe") in
  let pip :=
    Os.path_join (Os.path_join venv_dir (lit "Scripts")) (lit "pip.exe") in

  do* print ([128230] ++ lit " Creating virtual environment...") in
  do* subprocess_run [executable; lit "-m"; lit "venv"; venv_dir] None in

  do* print ([129529]
             ++ lit " Installing packages with conflict resolution...") in
  do* subprocess_run
        [pip; lit "install"; lit "--upgrade"; lit "setuptools"; lit "wheel"]
        None in
  do* subprocess_run [pip; lit "install"; lit "-r"; lit "requirements.txt"]
        None in

  do* print ([128466; 65039]
             ++ lit "  Freezing resolved requirements to requirements-fixed.txt...") in
  do* with_open_w (lit "requirements-fixed.txt")
        (subprocess_run [pip; lit "freeze"]
           (Some (lit "requirements-fixed.txt"))) in

  print ([9989] ++ lit " All done! Please rename 'requirements-fixed.txt' to 'requirements.txt' and redeploy.").

End Run.

(** The four commands, and everything the script does when they all
    succeed. *)
Definition pip : str := lit "venv-fix/Scripts/pip.exe".

Definition cmd_venv (executable : str) : list str :=
  [executable; lit "-m"; lit "venv"; lit "venv-fix"].

Definition cmd_upgrade : list str :=
  [pip; lit "install"; lit "--upgrade"; lit "setuptools"; lit "wheel"].

Definition cmd_install : list str :=
  [pip; lit "install"; lit "-r"; lit "requirements.txt"].

Definition cmd_freeze : list str := [pip; lit "freeze"].

Definition full_run (executable : str) : list event :=
  [Printed ([128230] ++ lit " Creating virtual environment...");
   Ran (cmd_venv executable) None;
   Printed ([129529] ++ lit " Installing packages with conflict resolution...");
   Ran cmd_upgrade None;
   Ran cmd_install None;
   Printed ([128466; 65039]
            ++ lit "  Freezing resolved requirements to requirements-fixed.txt...");
   Opened (lit "requirements-fixed.txt");
   Ran cmd_freeze (Some (lit "requirements-fixed.txt"));
   Closed (lit "requirements-fixed.txt");
   Printed ([9989] ++ lit " All done! Please rename 'requirements-fixed.txt' to 'requirements.txt' and redeploy.")].

(** A command that returned 0. *)
Definition succeeded (spawn : list str -> result Z) (argv : list str) : bool :=
  match spawn argv with
  | Ok returncode => (returncode =? 0)%Z
  | Raise _ => false
  end.

End Script.


(** * Properties *)

(** ** Strings *)

Section StrFacts.

Example split_lines :
  split NL (lit "a" ++ [NL; NL] ++ lit "b") = [lit "a"; []; lit "b"].
Proof. reflexivity. Qed.

Example split_empty : split NL [] = [[]].
Proof. reflexivity. Qed.

Example strip_both_ends :
  strip ([SPACE; 9] ++ lit "- x y" ++ [13; NL]) = lit "- x y".
Proof. reflexivity. Qed.

Example replace_spaces : replace SPACE (lit "_") (lit "a b  c") = lit "a_b__c".
Proof. reflexivity. Qed.

Example path_join_relative :
  Os.path_join (lit "./docs") (lit "notes.txt") = lit "./docs/notes.txt".
Proof. reflexivity. Qed.

Example path_join_absolute :
  Os.path_join (lit "./docs") (lit "/etc/passwd") = lit "/etc/passwd".
Proof. reflexivity. Qed.

Lemma split_nonempty sep s : split sep s <> [].
Proof.
  destruct s as [|c s]; simpl; [discriminate|].
  destruct (c =? sep); [discriminate|].
  destruct (split sep s); discriminate.
Qed.

(** Joining the pieces with the separator gives the string back. *)
Lemma join_split sep s : join [sep] (split sep s) = s.
Proof.
  induction s as [|c s IH]; simpl; [reflexivity|].
  destruct (N.eqb_spec c sep) as [->|Hne].
  - pose proof (split_nonempty sep s) as Hs.
    destruct (split sep s) as [|l ls]; [contradiction|].
    simpl in *. now rewrite IH.
  - destruct (split sep s) as [|l ls]; simpl in *.
    + now rewrite <- IH.
    + destruct ls; simpl in *; now rewrite <- IH.
Qed.

(** No piece holds the separator. *)
Lemma split_no_sep sep s l : In l (split sep s) -> ~ In sep l.
Proof.
  revert l. induction s as [|c s IH]; simpl; intros l Hl.
  - destruct Hl as [<-|[]]. intros [].
  - destruct (N.eqb_spec c sep) as [->|Hne].
    + destruct Hl as [<-|Hl]; [intros []|now apply IH].
    + destruct (split sep s) as [|l' ls].
      * destruct Hl as [<-|[]]. intros [H|[]]. now apply Hne.
      * destruct Hl as [<-|Hl].
        -- intros [H|H]; [now apply Hne|]. apply (IH l'); [now left|exact H].
        -- apply IH. now right.
Qed.

Lemma startswith_app p t : startswith (p ++ t) p = true.
Proof.
  induction p as [|c p IH]; simpl; [reflexivity|].
  now rewrite N.eqb_refl.
Qed.

Lemma startswith_spec s p :
  startswith s p = true <-> exists t, s = p ++ t.
Proof.
  split.
  - revert s. induction p as [|c p IH]; intros s H.
    + now exists s.
    + destruct s as [|d s]; simpl in H; [discriminate|].
      apply andb_prop in H as [Hd Hs]. apply N.eqb_eq in Hd as ->.
      destruct (IH _ Hs) as [t ->]. now exists t.
  - intros [t ->]. apply startswith_app.
Qed.

(** [needle in hay] decides the occurrence of [needle] in [hay]. *)
Lemma contains_spec hay needle :
  contains hay needle = true <-> Substring needle hay.
Proof.
  split.
  - induction hay as [|c hay IH]; simpl; intros H.
    + apply orb_prop in H as [H|H]; [|discriminate].
      apply startswith_spec in H as [t ->]. now exists [], t.
    + apply orb_prop in H as [H|H].
      * apply startswith_spec in H as [t Ht]. exists [], t. exact Ht.
      * destruct (IH H) as (pre & post & ->). now exists (c :: pre), post.
  - intros (pre & post & ->).
    induction pre as [|c pre IH]; simpl.
    + assert (Hu : forall h, startswith h needle = true ->
                             contains h needle = true).
      { intros [|d h] Hh; simpl; now rewrite Hh. }
      apply Hu, startswith_app.
    + rewrite IH. apply orb_true_r.
Qed.

(** Replacing one character by one character is a map. *)
Lemma replace_map old new s :
  replace old [new] s = List.map (fun c => if c =? old then new else c) s.
Proof.
  induction s as [|c s IH]; simpl; [reflexivity|].
  rewrite IH. now destruct (c =? old).
Qed.

End StrFacts.

Section StripFacts.

Lemma lstrip_nil_iff s : lstrip s = [] <-> forallb is_space s = true.
Proof.
  induction s as [|c s IH]; simpl; [tauto|].
  destruct (is_space c); simpl; [exact IH|].
  split; discriminate.
Qed.

Lemma rstrip_nil_iff s : rstrip s = [] <-> forallb is_space s = true.
Proof.
  induction s as [|c s IH]; simpl; [tauto|].
  destruct (rstrip s) as [|d t].
  - destruct (is_space c); simpl.
    + split; [intros _; now apply IH|reflexivity].
    + split; discriminate.
  - split; [discriminate|].
    intros H. apply andb_prop in H as [_ H]. apply IH in H. discriminate H.
Qed.

(** What [lstrip] leaves starts with a character that is not white. *)
Lemma lstrip_head s c t : lstrip s = c :: t -> is_space c = false.
Proof.
  induction s as [|d s IH]; simpl; [discriminate|].
  destruct (is_space d) eqn:Hd; [exact IH|].
  intros H. now injection H as <- _.
Qed.

(** The stripped line is empty exactly for a line of white space. *)
Lemma strip_nil_iff s : strip s = [] <-> forallb is_space s = true.
Proof.
  unfold strip. rewrite rstrip_nil_iff. split.
  - intros H. apply lstrip_nil_iff.
    destruct (lstrip s) as [|c t] eqn:E; [reflexivity|].
    apply lstrip_head in E. simpl in H. rewrite E in H. discriminate H.
  - intros H. apply lstrip_nil_iff in H. now rewrite H.
Qed.

(** [lstrip] drops white space only, from the left. *)
Lemma lstrip_spec s :
  exists ws, s = ws ++ lstrip s /\ forallb is_space ws = true.
Proof.
  induction s as [|c s (ws & Hs & Hws)]; simpl.
  - now exists [].
  - destruct (is_space c) eqn:Hc.
    + exists (c :: ws). simpl. rewrite Hc, Hws. split; [now f_equal|reflexivity].
    + now exists [].
Qed.

(** [rstrip] drops white space only, from the right. *)
Lemma rstrip_spec s :
  exists ws, s = rstrip s ++ ws /\ forallb is_space ws = true.
Proof.
  induction s as [|c s (ws & Hs & Hws)]; simpl.
  - now exists [].
  - destruct (rstrip s) as [|d t] eqn:E.
    + destruct (is_space c) eqn:Hc.
      * exists (c :: ws). simpl in *. rewrite Hc, Hws.
        split; [now f_equal|reflexivity].
      * exists ws. simpl in *. split; [now f_equal|exact Hws].
    + exists ws. split; [|exact Hws].
      change ((c :: d :: t) ++ ws) with (c :: (d :: t) ++ ws).
      now f_equal.
Qed.

(** The stripped string is the string without the white space at its two
    ends. *)
Lemma strip_spec s :
  exists l r,
    s = l ++ strip s ++ r /\
    forallb is_space l = true /\ forallb is_space r = true.
Proof.
  destruct (lstrip_spec s) as (l & Hl & Hlw).
  destruct (rstrip_spec (lstrip s)) as (r & Hr & Hrw).
  exists l, r. unfold strip. now rewrite <- Hr.
Qed.

End StripFacts.


(** ** The document monad *)

Lemma bind_ok {A B} (c : M A) (k : A -> M B) d a d' :
  c d = Ok (a, d') -> bind c k d = k a d'.
Proof. intros H. unfold bind. now rewrite H. Qed.

(** One call of a sequence, run by the equation that [t] proves for it. *)
Tactic Notation "step" "by" tactic3(t) := erewrite bind_ok by t.

Lemma bind_raise {A B} (c : M A) (k : A -> M B) d e :
  c d = Raise e -> bind c k d = Raise e.
Proof. intros H. unfold bind. now rewrite H. Qed.

Lemma ignore_ok {A} (c : M A) d a d' :
  c d = Ok (a, d') -> ignore c d = Ok (tt, d').
Proof. intros H. unfold ignore. now rewrite (bind_ok _ _ _ _ _ H). Qed.

Lemma ignore_unit (c : M unit) d : ignore c d = c d.
Proof. unfold ignore, bind, ret. now destruct (c d) as [[[] d']|e]. Qed.

Lemma bind_ignore {A B} (c : M A) (k : M B) d :
  bind c (fun _ => k) d = bind (ignore c) (fun _ => k) d.
Proof. unfold ignore, bind, ret. now destruct (c d) as [[a d']|e]. Qed.

Lemma read_last b secs p :
  read_par (InBody (length b)) (mkDocument (b ++ [p]) secs)
  = Ok (p, mkDocument (b ++ [p]) secs).
Proof.
  unfold read_par, bind, get. simpl.
  now rewrite list_lookup_middle.
Qed.

Lemma write_last b secs p q :
  write_par (InBody (length b)) q (mkDocument (b ++ [p]) secs)
  = Ok (tt, mkDocument (b ++ [q]) secs).
Proof.
  unfold write_par, bind, get, put. simpl.
  rewrite insert_app_r_alt by lia. now rewrite Nat.sub_diag.
Qed.

Lemma modify_last b secs p f :
  modify_par (InBody (length b)) f (mkDocument (b ++ [p]) secs)
  = Ok (tt, mkDocument (b ++ [f p]) secs).
Proof.
  unfold modify_par. step by apply read_last. apply write_last.
Qed.

(** A change of the run at place [i] of the last paragraph. *)
Lemma modify_run_last b secs p i y f :
  p_runs p !! i = Some y ->
  modify_run (InBody (length b), i) f (mkDocument (b ++ [p]) secs)
  = Ok (tt, mkDocument
              (b ++ [mkParagraph (p_style p) (p_alignment p)
                       (<[i:=f y]> (p_runs p))])
              secs).
Proof.
  intros Hy. unfold modify_run. cbn [fst snd].
  step by apply read_last. rewrite Hy. apply write_last.
Qed.

Section Performing.

Variable env : Env.

Lemma refusal_app texts texts' :
  Spec.refusal env (texts ++ texts')
  = match Spec.refusal env texts with
    | Some e => Some e
    | None => Spec.refusal env texts'
    end.
Proof.
  induction texts as [|t texts IH]; simpl; [reflexivity|].
  now destruct (if truthy t then text_error env t else None).
Qed.

(** Two parts, one after the other. *)
Lemma perform_bind {A} (c : M A) (c' : M unit) texts texts' f f' :
  (forall d, ignore c d = Spec.perform env texts f d) ->
  (forall d, c' d = Spec.perform env texts' f' d) ->
  forall d,
    bind c (fun _ => c') d
    = Spec.perform env (texts ++ texts') (fun d => f' (f d)) d.
Proof.
  intros Hc Hc' d. rewrite bind_ignore. unfold bind.
  rewrite Hc. unfold Spec.perform. rewrite refusal_app.
  destruct (Spec.refusal env texts); [reflexivity|].
  rewrite Hc'. reflexivity.
Qed.

Lemma perform_nil f d : Spec.perform env [] f d = Ok (tt, f d).
Proof. reflexivity. Qed.

(** A run added to the last paragraph, with its text. *)
Lemma add_run_last b secs p text :
  add_run env (InBody (length b)) text (mkDocument (b ++ [p]) secs)
  = match (if truthy text then text_error env text else None) with
    | Some e => Raise e
    | None =>
        Ok ((InBody (length b), length (p_runs p)),
            mkDocument
              (b ++ [mkParagraph (p_style p) (p_alignment p)
                       (p_runs p
                        ++ [mkRun (if truthy text then [Text text] else [])
                              None None])])
              secs)
    end.
Proof.
  unfold add_run.
  step by apply read_last. step by apply write_last.
  destruct text as [|c text]; cbn [truthy when].
  - step by reflexivity. reflexivity.
  - unfold set_run_text.
    destruct (text_error env (c :: text)) as [e|]; [reflexivity|].
    erewrite bind_ok;
      [|apply modify_run_last; cbn [p_runs];
        apply list_lookup_middle; reflexivity].
    unfold ret. cbn [p_runs p_style p_alignment r_bold r_font_size].
    rewrite insert_app_r_alt by lia. rewrite Nat.sub_diag. reflexivity.
Qed.

(** A new paragraph goes last in the body, when its text is taken. *)
Lemma add_paragraph_eq text style d :
  add_paragraph env text style d
  = match (if truthy text then text_error env text else None) with
    | Some e => Raise e
    | None =>
        Ok (InBody (length (d_body d)),
            Spec.append_body [mkParagraph style None (Spec.text_runs text)] d)
    end.
Proof.
  destruct d as [b secs]. unfold add_paragraph, Spec.append_body.
  cbn [d_body d_sections].
  step by reflexivity. step by reflexivity. cbn [d_body d_sections].
  unfold Spec.text_runs.
  destruct text as [|c text]; cbn [truthy when].
  - step by reflexivity.
    destruct style as [s|].
    + unfold set_style. step by apply modify_last. reflexivity.
    + step by reflexivity. reflexivity.
  - pose proof (add_run_last b secs (mkParagraph None None []) (c :: text))
      as Hrun.
    cbn [truthy p_runs p_style p_alignment length app] in Hrun.
    destruct (text_error env (c :: text)) as [e|].
    + apply bind_raise. unfold ignore. now apply bind_raise.
    + erewrite bind_ok; [|eapply ignore_ok; exact Hrun].
      destruct style as [s|].
      * unfold set_style. step by apply modify_last. reflexivity.
      * step by reflexivity. reflexivity.
Qed.

Lemma add_paragraph_perform text style d :
  ignore (add_paragraph env text style) d
  = Spec.perform env [text]
      (Spec.append_body [mkParagraph style None (Spec.text_runs text)]) d.
Proof.
  unfold ignore, bind, Spec.perform. rewrite add_paragraph_eq.
  cbn [Spec.refusal].
  now destruct (if truthy text then text_error env text else None).
Qed.

Lemma add_heading_perform text level d :
  (1 <= level <= 9)%Z ->
  ignore (add_heading env text level) d
  = Spec.perform env [text] (Spec.append_body [Spec.heading level text]) d.
Proof.
  intros H. unfold add_heading.
  replace ((0 <=? level)%Z && (level <=? 9)%Z) with true
    by (symmetry; apply andb_true_intro; split; apply Z.leb_le; lia).
  replace (level =? 0)%Z with false by (symmetry; apply Z.eqb_neq; lia).
  apply add_paragraph_perform.
Qed.

Lemma append_body_app ps ps' d :
  Spec.append_body ps' (Spec.append_body ps d) = Spec.append_body (ps ++ ps') d.
Proof. unfold Spec.append_body. cbn. now rewrite <- app_assoc. Qed.

(** A loop whose body gives one text and appends one paragraph gives
    the texts and appends the paragraphs of all items, in their order. *)
Lemma for_perform {A} (xs : list A) (body : A -> M unit)
    (t : A -> str) (p : A -> Paragraph) :
  (forall x d, body x d = Spec.perform env [t x] (Spec.append_body [p x]) d) ->
  forall d,
    for_ xs body d
    = Spec.perform env (List.map t xs) (Spec.append_body (List.map p xs)) d.
Proof.
  intros Hbody. induction xs as [|x xs IH]; intros d.
  - cbn. unfold Spec.append_body. rewrite app_nil_r. now destruct d.
  - cbn [for_ List.map].
    rewrite (perform_bind (body x) (for_ xs body) [t x] (List.map t xs)
               (Spec.append_body [p x])
               (Spec.append_body (List.map p xs))).
    + unfold Spec.perform. cbn [app].
      destruct (Spec.refusal env (t x :: List.map t xs)); [reflexivity|].
      now rewrite append_body_app.
    + intros d0. rewrite ignore_unit. apply Hbody.
    + exact IH.
Qed.

End Performing.

(** ** The assembled document *)

Section Assembly.

Variable env : Env.

(** The title block and the page break, after whatever the body holds. *)
Lemma title_perform d :
  (let! cover := add_paragraph env [] None in
   do! set_alignment cover CENTER in
   let! run := add_run env cover Spec.title_text in
   do! set_font_size run (Pt 20) in
   do! set_bold run true in
   ignore (add_page_break env)) d
  = Spec.perform env [Spec.title_text]
      (Spec.append_body [Spec.title_block; Spec.page_break]) d.
Proof.
  destruct d as [b secs]. unfold Spec.perform. cbn [Spec.refusal].
  pose proof (add_paragraph_eq env [] None (mkDocument b secs)) as Hp.
  cbn [truthy] in Hp. step by exact Hp. clear Hp.
  unfold Spec.append_body, Spec.text_runs. cbn [truthy d_body d_sections].
  unfold set_alignment. step by apply modify_last.
  cbn [p_style p_runs].
  pose proof (add_run_last env b secs (mkParagraph None (Some CENTER) [])
                Spec.title_text) as Hrun.
  change (truthy Spec.title_text) with true in *.
  cbn [p_runs p_style p_alignment length app] in Hrun.
  destruct (text_error env Spec.title_text) as [e|].
  - now apply bind_raise.
  - step by exact Hrun.
    unfold set_font_size.
    step by (apply modify_run_last; reflexivity).
    cbn [p_runs p_style p_alignment r_content r_bold r_font_size].
    unfold set_bold.
    step by (apply modify_run_last; reflexivity).
    cbn [p_runs p_style p_alignment r_content r_bold r_font_size].
    unfold add_page_break.
    eapply ignore_ok.
    match goal with
    | |- context [mkDocument (b ++ [?p]) secs] =>
        pose proof (add_paragraph_eq env [] None (mkDocument (b ++ [p]) secs))
          as Hp
    end.
    cbn [truthy] in Hp. step by exact Hp. clear Hp.
    unfold Spec.append_body, Spec.text_runs. cbn [truthy d_body d_sections].
    match goal with
    | |- context [InBody (length ?l)] =>
        pose proof (add_run_last env l secs (mkParagraph None None []) [])
          as Hrun'
    end.
    cbn [truthy p_runs p_style p_alignment length app] in Hrun'.
    step by exact Hrun'.
    unfold add_break.
    step by (apply modify_run_last; reflexivity).
    unfold ret. cbn. rewrite <- !app_assoc. reflexivity.
Qed.

(** The picture of the logo, or the exception of a file that is not
    read. *)
Lemma add_picture_eq fs path width d :
  add_picture env fs path width d
  = match Os.read_file env fs path with
    | Ok image =>
        match image_error env image with
        | Some e => Raise e
        | None =>
            Ok (tt, Spec.append_body
                      [mkParagraph None None
                         [mkRun [Picture image width] None None]] d)
        end
    | Raise e => Raise e
    end.
Proof.
  destruct d as [b secs]. unfold add_picture.
  pose proof (add_paragraph_eq env [] None (mkDocument b secs)) as Hp.
  cbn [truthy] in Hp. step by exact Hp. clear Hp.
  unfold Spec.append_body, Spec.text_runs. cbn [truthy d_body d_sections].
  pose proof (add_run_last env b secs (mkParagraph None None []) []) as Hrun.
  cbn [truthy p_runs p_style p_alignment length app] in Hrun.
  step by exact Hrun.
  unfold run_add_picture, lift.
  destruct (Os.read_file env fs path) as [image|e];
    [|now apply bind_raise].
  step by reflexivity.
  destruct (image_error env image) as [e|]; [reflexivity|].
  rewrite modify_run_last with (y := mkRun [] None None) by reflexivity.
  reflexivity.
Qed.

Lemma cover_page_eq fs d :
  cover_page env fs d
  = match Spec.logo_part env fs with
    | Ok logo =>
        Spec.perform env [Spec.title_text]
          (Spec.append_body (logo ++ [Spec.title_block; Spec.page_break])) d
    | Raise e => Raise e
    end.
Proof.
  unfold cover_page, Spec.logo_part. cbv zeta.
  change (Os.path_join STATIC_FOLDER (lit "logo.png")) with Spec.logo_path.
  change (lit "RecoveryPen AI" ++ [NL] ++
          lit "Trauma-Informed Companion" ++ [NL; NL])
    with Spec.title_text.
  destruct (Os.path_exists env fs Spec.logo_path); cbn [when].
  - unfold bind at 1. rewrite add_picture_eq.
    change (Inches 2) with 1828800%Z.
    destruct (Os.read_file env fs Spec.logo_path) as [image|e];
      [|reflexivity].
    destruct (image_error env image) as [e|]; [reflexivity|].
    rewrite title_perform. unfold Spec.perform.
    destruct (Spec.refusal env [Spec.title_text]); [reflexivity|].
    now rewrite append_body_app.
  - step by reflexivity. apply title_perform.
Qed.

Lemma branding_texts b c h c' f :
  (let! section := sections_0 in
   let! header := header_paragraphs_0 section in
   do! set_text env header (c :: h) in
   do! set_alignment header CENTER in
   let! footer := footer_paragraphs_0 section in
   do! set_text env footer (c' :: f) in
   set_alignment footer CENTER) (mkDocument b (d_sections new_Document))
  = Spec.perform env [c :: h; c' :: f]
      (fun d =>
         mkDocument (d_body d)
           [mkSection
              [mkParagraph (Some (lit "Header")) (Some CENTER)
                 [mkRun [Text (c :: h)] None None]]
              [mkParagraph (Some (lit "Footer")) (Some CENTER)
                 [mkRun [Text (c' :: f)] None None]]])
      (mkDocument b (d_sections new_Document)).
Proof.
  unfold Spec.perform. cbn [Spec.refusal truthy].
  unfold set_text, add_run, set_run_text, ignore.
  destruct (text_error env (c :: h)) as [e|] eqn:E1.
  - cbn. rewrite ?E1. reflexivity.
  - destruct (text_error env (c' :: f)) as [e|] eqn:E2.
    + cbn. rewrite ?E1. cbn. rewrite ?E2. reflexivity.
    + cbn. rewrite ?E1. cbn. rewrite ?E2. reflexivity.
Qed.

Lemma branding_eq b :
  branding env (mkDocument b (d_sections new_Document))
  = Spec.perform env [Spec.header_text; Spec.footer_text]
      (fun d => mkDocument (d_body d) Spec.branded_sections)
      (mkDocument b (d_sections new_Document)).
Proof. exact (branding_texts b _ _ _ _). Qed.

Lemma guide_line_perform line d :
  (if bool_decide (strip line = lit "") then
     ignore (add_paragraph env [] None)
   else if startswith (strip line) (lit "-") then
     ignore (add_paragraph env (strip line) (Some (lit "List Bullet")))
   else
     ignore (add_paragraph env (strip line) None)) d
  = Spec.perform env [strip line]
      (Spec.append_body [Spec.classify_line line]) d.
Proof.
  unfold Spec.classify_line.
  destruct (strip line) as [|c t].
  - rewrite bool_decide_eq_true_2 by reflexivity.
    apply add_paragraph_perform.
  - rewrite bool_decide_eq_false_2 by discriminate.
    change (startswith (c :: t) (lit "-")) with ((c =? DASH) && true).
    rewrite andb_true_r.
    destruct (c =? DASH); apply add_paragraph_perform.
Qed.

Variable request : DocxRequest.

Lemma main_content_eq d :
  main_content env request d
  = Spec.perform env
      ([topic request; lit "Objectives"]
       ++ List.map (fun obj => lit "- " ++ obj) (objectives request)
       ++ [lit "Recovery Guide"]
       ++ List.map strip (split NL (guide request)))
      (Spec.append_body
         (Spec.objectives_part request ++ Spec.guide_part request)) d.
Proof.
  unfold main_content.
  erewrite perform_bind;
    [|intros; apply add_heading_perform; lia
     |intros d0; erewrite perform_bind;
      [reflexivity
      |intros; apply add_heading_perform; lia
      |intros d1; erewrite perform_bind;
       [reflexivity
       |intros d2; rewrite ignore_unit;
        apply (for_perform env (objectives request) _
                 (fun obj => lit "- " ++ obj)
                 (fun obj => Spec.bulleted_paragraph (lit "- " ++ obj)));
        intros; apply add_paragraph_perform
       |intros d2; erewrite perform_bind;
        [reflexivity
        |intros; apply add_heading_perform; lia
        |intros d3;
         apply (for_perform env (split NL (guide request)) _
                  strip Spec.classify_line);
         intros; apply guide_line_perform]]]].
  unfold Spec.perform. cbn [app].
  match goal with
  | |- match ?r with _ => _ end = _ => destruct r; [reflexivity|]
  end.
  rewrite !append_body_app. reflexivity.
Qed.

Lemma summary_section_eq d :
  summary_section env request d
  = Spec.perform env
      (match upload_summary request with
       | Some (c :: t) => [lit "Upload Summary"; c :: t]
       | _ => []
       end)
      (Spec.append_body (Spec.summary_part request)) d.
Proof.
  unfold summary_section, Spec.summary_part.
  destruct (upload_summary request) as [[|c t]|]; cbn [truthy when].
  - unfold Spec.perform, Spec.append_body. cbn.
    rewrite app_nil_r. now destruct d.
  - rewrite (perform_bind env _ _ [lit "Upload Summary"] [c :: t]
               (Spec.append_body [Spec.heading 2 (lit "Upload Summary")])
               (Spec.append_body [Spec.plain_paragraph (c :: t)])
               (fun d => add_heading_perform env _ 2 d ltac:(lia))
               (fun d => add_paragraph_perform env _ _ d)).
    unfold Spec.perform. cbn [app].
    match goal with
    | |- match ?r with _ => _ end = _ => destruct r; [reflexivity|]
    end.
    now rewrite append_body_app.
  - unfold Spec.perform, Spec.append_body. cbn.
    rewrite app_nil_r. now destruct d.
Qed.

Variable fs : Os.filesystem.

(** The calls of the handler build the document of the specification, or
    raise with the first thing that is refused. *)
Lemma assemble_eq :
  assemble env fs request new_Document
  = match Spec.logo_part env fs with
    | Ok logo =>
        match Spec.refusal env (Spec.texts request) with
        | Some e => Raise e
        | None => Ok (tt, Spec.document_of logo request)
        end
    | Raise e => Raise e
    end.
Proof.
  unfold assemble. unfold bind at 1. rewrite cover_page_eq.
  destruct (Spec.logo_part env fs) as [logo|e]; [|reflexivity].
  pose (main := [topic request; lit "Objectives"]
                ++ List.map (fun obj => lit "- " ++ obj) (objectives request)
                ++ [lit "Recovery Guide"]
                ++ List.map strip (split NL (guide request))).
  pose (summary := match upload_summary request with
                   | Some (c :: t) => [lit "Upload Summary"; c :: t]
                   | _ => []
                   end).
  assert (Ht : Spec.texts request
               = [Spec.title_text]
                 ++ [Spec.header_text; Spec.footer_text]
                 ++ main ++ summary)
    by (unfold main, summary, Spec.texts; rewrite <- !app_assoc;
        reflexivity).
  rewrite Ht, !refusal_app. clear Ht. subst main summary.
  unfold Spec.perform at 1.
  destruct (Spec.refusal env [Spec.title_text]) as [e|]; [reflexivity|].
  change (Spec.append_body (logo ++ [Spec.title_block; Spec.page_break])
            new_Document)
    with (mkDocument (logo ++ [Spec.title_block; Spec.page_break])
            (d_sections new_Document)).
  unfold bind at 1.
  rewrite (branding_eq (logo ++ [Spec.title_block; Spec.page_break])).
  unfold Spec.perform at 1.
  destruct (Spec.refusal env [Spec.header_text; Spec.footer_text]) as [e|];
    [reflexivity|].
  cbn [d_body].
  unfold bind at 1. rewrite main_content_eq. unfold Spec.perform at 1.
  match goal with
  | |- match (match ?r with _ => _ end) with _ => _ end = _ =>
      destruct r as [e|]; [reflexivity|]
  end.
  rewrite summary_section_eq. unfold Spec.perform.
  match goal with
  | |- match ?r with _ => _ end = _ => destruct r as [e|]; [reflexivity|]
  end.
  unfold Spec.append_body, Spec.document_of. cbn [d_body d_sections].
  rewrite <- !app_assoc. reflexivity.
Qed.

End Assembly.

(** ** The response *)

Lemma encode_latin1_cases s :
  if Spec.latin1 s then exists bytes, encode_latin1 s = Ok bytes
  else encode_latin1 s = Raise UnicodeEncodeError.
Proof.
  induction s as [|c s IH]; cbn [Spec.latin1 forallb encode_latin1].
  - now exists [].
  - fold (Spec.latin1 s).
    destruct (N.ltb_spec c 256) as [Hc|Hc]; cbn [andb].
    + destruct (Byte.of_N c) as [b|] eqn:Hb;
        [|apply Byte.of_N_None_iff in Hb; lia].
      destruct (Spec.latin1 s).
      * destruct IH as [bytes ->]. now exists (b :: bytes).
      * now rewrite IH.
    + destruct (Byte.of_N c) as [b|] eqn:Hb; [|reflexivity].
      apply Byte.to_of_N in Hb. pose proof (Byte.to_N_bounded b). lia.
Qed.

Lemma latin1_app s t :
  Spec.latin1 (s ++ t) = Spec.latin1 s && Spec.latin1 t.
Proof. apply forallb_app. Qed.

Lemma latin1_replace s :
  Spec.latin1 (replace SPACE (lit "_") s) = Spec.latin1 s.
Proof.
  induction s as [|c s IH]; [reflexivity|].
  cbn [replace]. rewrite latin1_app, IH. cbn [Spec.latin1 forallb].
  destruct (N.eqb_spec c SPACE) as [->|_]; [reflexivity|].
  cbn [Spec.latin1 forallb]. now rewrite andb_true_r.
Qed.

(** The constructor takes the headers of the handler exactly when the
    topic can be written in Latin-1. *)
Lemma new_StreamingResponse_cases doc t :
  new_StreamingResponse doc Spec.media_type
    [(lit "Content-Disposition",
      lit "attachment; filename=" ++ replace SPACE (lit "_") t
      ++ lit "_Recovery_Guide.docx")]
  = if Spec.latin1 t
    then Ok (mkStreamingResponse doc Spec.media_type
               [(lit "Content-Disposition",
                 lit "attachment; filename="
                 ++ Spec.attachment_filename t)])
    else Raise UnicodeEncodeError.
Proof.
  unfold new_StreamingResponse. cbn [encode_headers].
  pose proof (encode_latin1_cases (lit "Content-Disposition")) as Hname.
  change (Spec.latin1 (lit "Content-Disposition")) with true in Hname.
  destruct Hname as [name ->]. cbv beta iota.
  pose proof (encode_latin1_cases
                (lit "attachment; filename=" ++ replace SPACE (lit "_") t
                 ++ lit "_Recovery_Guide.docx")) as H.
  rewrite !latin1_app, latin1_replace in H.
  change (Spec.latin1 (lit "attachment; filename=")) with true in H.
  change (Spec.latin1 (lit "_Recovery_Guide.docx")) with true in H.
  rewrite andb_true_l, andb_true_r in H.
  destruct (Spec.latin1 t).
  - destruct H as [bytes ->]. cbv beta iota.
    unfold Spec.attachment_filename.
    change (lit "_") with [UNDERSCORE]. now rewrite replace_map.
  - now rewrite H.
Qed.

Section Response.

Variable env : Env.
Variable fs : Os.filesystem.
Variable request : DocxRequest.

(** What the handler returns, case by case: the logo, then the texts,
    then the encoding of the header. *)
Lemma generate_docx_cases :
  generate_docx env fs request
  = match Spec.logo_part env fs with
    | Ok logo =>
        match Spec.refusal env (Spec.texts request) with
        | Some e => Raise e
        | None =>
            if Spec.latin1 (topic request)
            then Ok (Spec.response_of logo request)
            else Raise UnicodeEncodeError
        end
    | Raise e => Raise e
    end.
Proof.
  unfold generate_docx. rewrite assemble_eq.
  destruct (Spec.logo_part env fs) as [logo|e]; [|reflexivity].
  destruct (Spec.refusal env (Spec.texts request)) as [e|]; [reflexivity|].
  cbn [snd]. apply new_StreamingResponse_cases.
Qed.

(** The document of a request whose texts are taken and whose logo, if
    any, is read. *)
Lemma assemble_assembled :
  Spec.assembled env fs request = true ->
  assemble env fs request new_Document
  = Ok (tt, Spec.document_of (Spec.logo_paragraphs env fs) request).
Proof.
  rewrite assemble_eq. unfold Spec.assembled, Spec.logo_paragraphs.
  destruct (Spec.logo_part env fs) as [logo|e]; [|discriminate].
  now destruct (Spec.refusal env (Spec.texts request)) as [e|].
Qed.

(** No other request has one. *)
Lemma assemble_inv doc :
  assemble env fs request new_Document = Ok (tt, doc) ->
  Spec.assembled env fs request = true /\
  doc = Spec.document_of (Spec.logo_paragraphs env fs) request.
Proof.
  rewrite assemble_eq. unfold Spec.assembled, Spec.logo_paragraphs.
  destruct (Spec.logo_part env fs) as [logo|e]; [|discriminate].
  destruct (Spec.refusal env (Spec.texts request)) as [e|]; [discriminate|].
  intros H. injection H as <-. now split.
Qed.

(** A request that is accepted gets its document. *)
Lemma generate_docx_accepted :
  Spec.accepted env fs request = true ->
  generate_docx env fs request
  = Ok (Spec.response_of (Spec.logo_paragraphs env fs) request).
Proof.
  rewrite generate_docx_cases.
  unfold Spec.accepted, Spec.assembled, Spec.logo_paragraphs.
  destruct (Spec.logo_part env fs) as [logo|e]; [|discriminate].
  destruct (Spec.refusal env (Spec.texts request)) as [e|]; [discriminate|].
  cbn [andb]. now intros ->.
Qed.

(** No other request gets one. *)
Lemma generate_docx_inv resp :
  generate_docx env fs request = Ok resp ->
  Spec.accepted env fs request = true /\
  resp = Spec.response_of (Spec.logo_paragraphs env fs) request.
Proof.
  rewrite generate_docx_cases.
  unfold Spec.accepted, Spec.assembled, Spec.logo_paragraphs.
  destruct (Spec.logo_part env fs) as [logo|e]; [|discriminate].
  destruct (Spec.refusal env (Spec.texts request)) as [e|]; [discriminate|].
  destruct (Spec.latin1 (topic request)); [|discriminate].
  intros H. injection H as <-. now split.
Qed.

(** The response of an assembled document whose topic is Latin-1
    carries the document. *)
Lemma assembled_response :
  Spec.assembled env fs request = true ->
  Spec.latin1 (topic request) = true ->
  generate_docx env fs request
  = Ok (Spec.response_of (Spec.logo_paragraphs env fs) request).
Proof.
  intros Ha Hl. apply generate_docx_accepted.
  unfold Spec.accepted. now rewrite Ha, Hl.
Qed.

(** An assembled document that holds no text the library refuses is
    lost when the topic is not Latin-1. *)
Lemma assembled_not_latin1 :
  Spec.assembled env fs request = true ->
  Spec.latin1 (topic request) = false ->
  generate_docx env fs request = Raise UnicodeEncodeError.
Proof.
  rewrite generate_docx_cases. unfold Spec.assembled.
  destruct (Spec.logo_part env fs) as [logo|e]; [|discriminate].
  destruct (Spec.refusal env (Spec.texts request)) as [e|]; [discriminate|].
  now intros _ ->.
Qed.

(** A topic with a character above U+00FF gets no response. *)
Lemma generate_docx_not_latin1 :
  Spec.latin1 (topic request) = false ->
  exists e, generate_docx env fs request = Raise e.
Proof.
  intros H. rewrite generate_docx_cases, H.
  destruct (Spec.logo_part env fs) as [logo|e]; [|eauto].
  destruct (Spec.refusal env (Spec.texts request)) as [e|]; eauto.
Qed.

End Response.

(** ** The claims on [/generate-docx] *)





(** The paragraphs of the logo: none without a logo file, one with the
    bytes of the file in a document that is assembled. *)
Lemma logo_paragraphs_absent env fs :
  Os.path_exists env fs Spec.logo_path = false ->
  Spec.logo_paragraphs env fs = [].
Proof.
  intros H. unfold Spec.logo_paragraphs, Spec.logo_part. now rewrite H.
Qed.

Lemma logo_paragraphs_present env fs request :
  Os.path_exists env fs Spec.logo_path = true ->
  Spec.assembled env fs request = true ->
  exists image,
    Os.read_file env fs Spec.logo_path = Ok image /\
    image_error env image = None /\
    Spec.logo_paragraphs env fs = [Spec.logo_paragraph image].
Proof.
  intros H. unfold Spec.assembled, Spec.logo_paragraphs, Spec.logo_part.
  rewrite H.
  destruct (Os.read_file env fs Spec.logo_path) as [image|e];
    cbv beta iota; [|discriminate].
  destruct (image_error env image) as [e|] eqn:E; [discriminate|].
  intros _. now exists image.
Qed.

Lemma accepted_assembled env fs request :
  Spec.accepted env fs request = true ->
  Spec.assembled env fs request = true /\
  Spec.latin1 (topic request) = true.
Proof. unfold Spec.accepted. apply andb_prop. Qed.

(** The guard of the source is what keeps the assembly going: without a
    file to read the picture raises. *)
Lemma add_picture_missing env fs path width d e :
  Os.read_file env fs path = Raise e ->
  add_picture env fs path width d = Raise e.
Proof. intros H. rewrite add_picture_eq. now rewrite H. Qed.

(** The document of a request that is assembled, and the response that
    carries it when the topic is Latin-1. *)
Lemma assembled_document env fs request :
  Spec.assembled env fs request = true ->
  exists doc,
    assemble env fs request new_Document = Ok (tt, doc) /\
    doc = Spec.document_of (Spec.logo_paragraphs env fs) request /\
    (Spec.latin1 (topic request) = true ->
     exists resp,
       generate_docx env fs request = Ok resp /\ sr_content resp = doc).
Proof.
  intros H. eexists. split; [now apply assemble_assembled|].
  split; [reflexivity|]. intros Hl. eexists.
  split; [now apply assembled_response|reflexivity].
Qed.

(** C1 as stated fails.  A line of the guide with a control character
    is refused by the document library, the handler raises and no
    paragraph is made of the line; a logo file that is no image stops
    the assembly before the guide; and with the guide of the
    specification under a topic that holds an en dash the handler
    raises when it makes the response. *)
Lemma C1_refused_line_counterexample :
  ~ (exists doc,
       assemble host ∅
         (mkDocxRequest (lit "My Plan") [] control_text None) new_Document
       = Ok (tt, doc) /\
       d_body doc
       = [Spec.title_block; Spec.page_break]
         ++ Spec.objectives_part (mkDocxRequest (lit "My Plan") [] [] None)
         ++ [Spec.heading 2 (lit "Recovery Guide");
             Spec.plain_paragraph control_text]) /\
  ~ (exists doc,
       assemble host broken_logo
         (mkDocxRequest (lit "My Plan") [] (lit "Intro

- Step one
Step two") None) new_Document
       = Ok (tt, doc) /\
       In (Spec.plain_paragraph (lit "Intro")) (d_body doc)) /\
  ~ (exists resp,
       generate_docx host ∅ (mkDocxRequest dash_topic [] (lit "Intro

- Step one
Step two") None)
       = Ok resp /\
       d_body (sr_content resp)
       = [Spec.title_block; Spec.page_break]
         ++ Spec.objectives_part (mkDocxRequest dash_topic [] [] None)
         ++ [Spec.heading 2 (lit "Recovery Guide");
             Spec.plain_paragraph (lit "Intro");
             Spec.blank_paragraph;
             Spec.bulleted_paragraph (lit "- Step one");
             Spec.plain_paragraph (lit "Step two")]).
Proof.
  split; [|split].
  - intros (doc & H & _). vm_compute in H. discriminate H.
  - intros (doc & H & _). vm_compute in H. discriminate H.
  - intros (resp & H & _). vm_compute in H. discriminate H.
Qed.

(** C1, amended. For a request whose texts the document library takes
    and whose logo file, when there is one, it reads as an image, every
    line of the guide, split on the newline, gives one body paragraph
    after the "Recovery Guide" heading, in the order of the lines: a
    blank paragraph when the stripped line is empty, a bulleted
    paragraph with the stripped line when that starts with "-", a plain
    paragraph with the stripped line otherwise; the response carries
    this document when every character of the topic is at most U+00FF.
    For the guide "Intro\n\n- Step one\nStep two" the paragraphs are
    plain "Intro", blank, bulleted "- Step one", plain "Step two". *)
Theorem C1_guide_lines_classified :
  (forall env fs request,
     Spec.assembled env fs request = true ->
     exists doc,
       assemble env fs request new_Document = Ok (tt, doc) /\
       d_body doc
       = Spec.logo_paragraphs env fs
         ++ [Spec.title_block; Spec.page_break]
         ++ Spec.objectives_part request
         ++ (Spec.heading 2 (lit "Recovery Guide")
             :: List.map Spec.classify_line (split NL (guide request)))
         ++ Spec.summary_part request /\
       (Spec.latin1 (topic request) = true ->
        exists resp,
          generate_docx env fs request = Ok resp /\
          sr_content resp = doc)) /\
  (forall line,
     Spec.classify_line line
     = if bool_decide (strip line = [])
       then mkParagraph None None []
       else if startswith (strip line) (lit "-")
            then mkParagraph (Some (lit "List Bullet")) None
                   [mkRun [Text (strip line)] None None]
            else mkParagraph None None
                   [mkRun [Text (strip line)] None None]) /\
  (forall env fs t o,
     Spec.assembled env fs (mkDocxRequest t o (lit "Intro

- Step one
Step two") None) = true ->
     exists doc,
       assemble env fs (mkDocxRequest t o (lit "Intro

- Step one
Step two") None) new_Document
       = Ok (tt, doc) /\
       d_body doc
       = Spec.logo_paragraphs env fs
         ++ [Spec.title_block; Spec.page_break]
         ++ Spec.objectives_part (mkDocxRequest t o [] None)
         ++ [Spec.heading 2 (lit "Recovery Guide");
             Spec.plain_paragraph (lit "Intro");
             Spec.blank_paragraph;
             Spec.bulleted_paragraph (lit "- Step one");
             Spec.plain_paragraph (lit "Step two")] /\
       (Spec.latin1 t = true ->
        exists resp,
          generate_docx env fs (mkDocxRequest t o (lit "Intro

- Step one
Step two") None) = Ok resp /\
          sr_content resp = doc)).
Proof.
  split; [|split].
  - intros env fs request Hacc.
    destruct (assembled_document env fs request Hacc)
      as (doc & Hdoc & -> & Hresp).
    eexists. split; [exact Hdoc|]. split; [reflexivity|exact Hresp].
  - intros line. unfold Spec.classify_line.
    destruct (strip line) as [|c t].
    + now rewrite bool_decide_eq_true_2.
    + rewrite bool_decide_eq_false_2 by discriminate.
      change (startswith (c :: t) (lit "-")) with ((c =? DASH) && true).
      rewrite andb_true_r. now destruct (c =? DASH).
  - intros env fs t o Hacc.
    destruct (assembled_document env fs _ Hacc) as (doc & Hdoc & -> & Hresp).
    eexists. split; [exact Hdoc|]. split; [|exact Hresp].
    cbn [d_body Spec.document_of].
    unfold Spec.summary_part. cbn [upload_summary].
    rewrite app_nil_r. reflexivity.
Qed.

(** C1, amended, at the guide of the specification under the topic "My
    Plan". *)
Lemma C1_guide_lines_classified_witness :
  exists doc,
    assemble host ∅
      (mkDocxRequest (lit "My Plan") [lit "Breathe"] (lit "Intro

- Step one
Step two") None)
      new_Document
    = Ok (tt, doc) /\
    d_body doc
    = Spec.logo_paragraphs host ∅
      ++ [Spec.title_block; Spec.page_break]
      ++ Spec.objectives_part
           (mkDocxRequest (lit "My Plan") [lit "Breathe"] [] None)
      ++ [Spec.heading 2 (lit "Recovery Guide");
          Spec.plain_paragraph (lit "Intro");
          Spec.blank_paragraph;
          Spec.bulleted_paragraph (lit "- Step one");
          Spec.plain_paragraph (lit "Step two")] /\
    exists resp,
      generate_docx host ∅
        (mkDocxRequest (lit "My Plan") [lit "Breathe"] (lit "Intro

- Step one
Step two") None)
      = Ok resp /\
      sr_content resp = doc.
Proof.
  assert (Hassembled :
            Spec.assembled host ∅
              (mkDocxRequest (lit "My Plan") [lit "Breathe"] (lit "Intro

- Step one
Step two") None) = true) by reflexivity.
  destruct (proj2 (proj2 C1_guide_lines_classified) host ∅ (lit "My Plan")
              [lit "Breathe"] Hassembled) as (doc & Hdoc & Hbody & Hresp).
  exists doc. split; [exact Hdoc|]. split; [exact Hbody|].
  apply Hresp. reflexivity.
Defined.

(** C5 as stated fails: for the topic "P–Q", with an en dash, the
    constructor of the response raises and there is no header; a topic
    with a control character and a logo file that is no image stop the
    handler before that. *)
Lemma C5_no_header_counterexample :
  ~ (exists resp,
       generate_docx host ∅ (mkDocxRequest dash_topic [] (lit "Intro") None)
       = Ok resp /\
       sr_headers resp
       = [(lit "Content-Disposition",
           lit "attachment; filename=" ++ dash_topic
           ++ lit "_Recovery_Guide.docx")]) /\
  ~ (exists resp,
       generate_docx host ∅ (mkDocxRequest control_text [] (lit "Intro") None)
       = Ok resp /\
       sr_headers resp
       = [(lit "Content-Disposition",
           lit "attachment; filename=" ++ control_text
           ++ lit "_Recovery_Guide.docx")]) /\
  ~ (exists resp,
       generate_docx host broken_logo plan_request = Ok resp /\
       sr_headers resp
       = [(lit "Content-Disposition",
           lit "attachment; filename=My_Plan_Recovery_Guide.docx")]).
Proof.
  split; [|split]; intros (resp & H & _); vm_compute in H; discriminate H.
Qed.

(** C5, amended. For a request that gets a response (its texts are
    taken by the document library, its logo file, when there is one, is
    read as an image, and every character of its topic is at most
    U+00FF) the Content-Disposition header names the attachment after
    the topic with every space replaced by an underscore, followed by
    "_Recovery_Guide.docx"; for the topic "My Plan" the name is
    "My_Plan_Recovery_Guide.docx". *)
Theorem C5_attachment_filename :
  (forall env fs request,
     Spec.accepted env fs request = true ->
     exists resp,
       generate_docx env fs request = Ok resp /\
       sr_headers resp
       = [(lit "Content-Disposition",
           lit "attachment; filename="
           ++ List.map (fun c => if c =? SPACE then UNDERSCORE else c)
                (topic request)
           ++ lit "_Recovery_Guide.docx")]) /\
  (forall env fs o g u,
     Spec.accepted env fs (mkDocxRequest (lit "My Plan") o g u) = true ->
     exists resp,
       generate_docx env fs (mkDocxRequest (lit "My Plan") o g u) = Ok resp /\
       sr_headers resp
       = [(lit "Content-Disposition",
           lit "attachment; filename=My_Plan_Recovery_Guide.docx")]).
Proof.
  split.
  - intros env fs request Hacc. eexists.
    split; [now apply generate_docx_accepted|reflexivity].
  - intros env fs o g u Hacc. eexists.
    split; [now apply generate_docx_accepted|reflexivity].
Qed.

(** C5, amended, at the request for "My Plan". *)
Lemma C5_attachment_filename_witness :
  exists resp,
    generate_docx host ∅ plan_request = Ok resp /\
    sr_headers resp
    = [(lit "Content-Disposition",
        lit "attachment; filename=My_Plan_Recovery_Guide.docx")].
Proof.
  apply (proj2 C5_attachment_filename host ∅ [lit "Breathe"]
           (lit "- Step one") (Some (lit "notes"))).
  reflexivity.
Defined.







(** The handler does not tell an empty summary from an absent one. *)
Lemma empty_summary_as_absent env fs t o g :
  assemble env fs (mkDocxRequest t o g (Some [])) new_Document
  = assemble env fs (mkDocxRequest t o g None) new_Document /\
  generate_docx env fs (mkDocxRequest t o g (Some []))
  = generate_docx env fs (mkDocxRequest t o g None).
Proof. split; [now rewrite !assemble_eq|now rewrite !generate_docx_cases]. Qed.

(** The "Upload Summary" heading is in no part before the summary. *)
Lemma no_summary_heading logo request :
  (forall p, In p logo -> p <> Spec.heading 2 (lit "Upload Summary")) ->
  ~ In (Spec.heading 2 (lit "Upload Summary"))
      (logo ++ [Spec.title_block; Spec.page_break]
       ++ Spec.objectives_part request ++ Spec.guide_part request).
Proof.
  intros Hlogo Hin.
  apply in_app_or in Hin as [Hin|Hin]; [now apply (Hlogo _ Hin)|].
  cbn [app In] in Hin.
  destruct Hin as [Hin|[Hin|Hin]]; try discriminate Hin.
  apply in_app_or in Hin as [Hin|Hin].
  - destruct Hin as [Hin|[Hin|Hin]].
    + apply (f_equal p_style) in Hin. vm_compute in Hin. discriminate Hin.
    + apply (f_equal p_runs) in Hin. vm_compute in Hin. discriminate Hin.
    + apply in_map_iff in Hin as (obj & Hin & _).
      apply (f_equal p_style) in Hin. vm_compute in Hin. discriminate Hin.
  - destruct Hin as [Hin|Hin].
    + apply (f_equal p_runs) in Hin. vm_compute in Hin. discriminate Hin.
    + apply in_map_iff in Hin as (line & Hin & _).
      unfold Spec.classify_line in Hin.
      destruct (strip line) as [|c s]; [discriminate Hin|].
      destruct (c =? DASH); apply (f_equal p_style) in Hin;
        vm_compute in Hin; discriminate Hin.
Qed.

Lemma logo_paragraphs_no_heading env fs p :
  In p (Spec.logo_paragraphs env fs) ->
  p <> Spec.heading 2 (lit "Upload Summary").
Proof.
  unfold Spec.logo_paragraphs, Spec.logo_part.
  destruct (Os.path_exists env fs Spec.logo_path); [|intros []].
  destruct (Os.read_file env fs Spec.logo_path) as [image|e];
    cbv beta iota; [|intros []].
  destruct (image_error env image); [intros []|].
  intros [<-|[]]. discriminate.
Qed.

(** C9. An upload summary given as the empty string leaves the "Upload
    Summary" heading and its paragraph out, exactly as an absent
    summary does: the handler makes the same calls and ends in the same
    way, and the document that it assembles stops after the lines of
    the guide. *)
Theorem C9_empty_summary_omitted :
  forall env fs t o g,
    assemble env fs (mkDocxRequest t o g (Some (lit ""))) new_Document
    = assemble env fs (mkDocxRequest t o g None) new_Document /\
    generate_docx env fs (mkDocxRequest t o g (Some (lit "")))
    = generate_docx env fs (mkDocxRequest t o g None) /\
    (Spec.assembled env fs (mkDocxRequest t o g (Some (lit ""))) = true ->
     exists doc,
       assemble env fs (mkDocxRequest t o g (Some (lit ""))) new_Document
       = Ok (tt, doc) /\
       d_body doc
       = Spec.logo_paragraphs env fs
         ++ [Spec.title_block; Spec.page_break]
         ++ Spec.objectives_part (mkDocxRequest t o g None)
         ++ Spec.guide_part (mkDocxRequest t o g None) /\
       ~ In (Spec.heading 2 (lit "Upload Summary")) (d_body doc) /\
       (Spec.latin1 t = true ->
        exists resp,
          generate_docx env fs (mkDocxRequest t o g (Some (lit ""))) = Ok resp /\
          sr_content resp = doc)).
Proof.
  intros env fs t o g. change (lit "") with (@nil N).
  split; [apply empty_summary_as_absent|].
  split; [apply empty_summary_as_absent|].
  intros Hacc.
  destruct (assembled_document env fs _ Hacc) as (doc & Hdoc & -> & Hresp).
  eexists. split; [exact Hdoc|].
  cbn [d_body Spec.document_of].
  unfold Spec.summary_part. cbn [upload_summary].
  rewrite !app_nil_r. split; [reflexivity|]. split; [|exact Hresp].
  apply (no_summary_heading _ (mkDocxRequest t o g None)).
  apply logo_paragraphs_no_heading.
Qed.

(** C9 at a request for "My Plan" with an empty summary. *)
Lemma C9_empty_summary_omitted_witness :
  exists doc,
    assemble host ∅
      (mkDocxRequest (lit "My Plan") [lit "Breathe"] (lit "- Step one")
         (Some (lit ""))) new_Document
    = Ok (tt, doc) /\
    d_body doc
    = Spec.logo_paragraphs host ∅
      ++ [Spec.title_block; Spec.page_break]
      ++ Spec.objectives_part
           (mkDocxRequest (lit "My Plan") [lit "Breathe"] (lit "- Step one")
              None)
      ++ Spec.guide_part
           (mkDocxRequest (lit "My Plan") [lit "Breathe"] (lit "- Step one")
              None) /\
    ~ In (Spec.heading 2 (lit "Upload Summary")) (d_body doc) /\
    exists resp,
      generate_docx host ∅
        (mkDocxRequest (lit "My Plan") [lit "Breathe"] (lit "- Step one")
           (Some (lit ""))) = Ok resp /\
      sr_content resp = doc.
Proof.
  assert (Hassembled :
            Spec.assembled host ∅
              (mkDocxRequest (lit "My Plan") [lit "Breathe"]
                 (lit "- Step one") (Some (lit ""))) = true) by reflexivity.
  destruct (proj2 (proj2 (C9_empty_summary_omitted host ∅ (lit "My Plan")
                            [lit "Breathe"] (lit "- Step one"))) Hassembled)
    as (doc & H1 & H2 & H3 & H4).
  exists doc. split; [exact H1|]. split; [exact H2|]. split; [exact H3|].
  apply H4. reflexivity.
Defined.

(** C10 as stated fails: the en dash of the topic "P–Q" and the control
    character of the topic "A", U+0001, "B" are not spaces, and they
    stand in no header, since there is no response. *)
Lemma C10_no_header_counterexample :
  (dash_topic !! 1%nat = Some 8211 /\ 8211 <> SPACE /\
   ~ exists resp value,
       generate_docx host ∅ (mkDocxRequest dash_topic [] [] None) = Ok resp /\
       sr_headers resp = [(lit "Content-Disposition", value)] /\
       value !! (length (lit "attachment; filename=") + 1)%nat = Some 8211) /\
  (control_text !! 1%nat = Some 1 /\ 1 <> SPACE /\
   ~ exists resp value,
       generate_docx host ∅ (mkDocxRequest control_text [] [] None) = Ok resp /\
       sr_headers resp = [(lit "Content-Disposition", value)] /\
       value !! (length (lit "attachment; filename=") + 1)%nat = Some 1).
Proof.
  split; (split; [reflexivity|]); (split; [discriminate|]);
    intros (resp & value & H & _); vm_compute in H; discriminate H.
Qed.

(** C10, amended. For a request that gets a response (its texts are
    taken by the document library, its logo file, when there is one, is
    read as an image, and every character of its topic is at most
    U+00FF) only the space is replaced: a character of the topic that
    is not a space, a tab, a slash or a quote among them, stands
    unchanged in the Content-Disposition value, at its place after
    "attachment; filename=". *)
Theorem C10_other_characters_verbatim env fs request i c
    (Haccepted : Spec.accepted env fs request = true)
    (Hi : topic request !! i = Some c) (Hc : c <> SPACE) :
  exists resp value,
    generate_docx env fs request = Ok resp /\
    sr_headers resp = [(lit "Content-Disposition", value)] /\
    length value
    = (length (lit "attachment; filename=") + length (topic request)
       + length (lit "_Recovery_Guide.docx"))%nat /\
    value !! (length (lit "attachment; filename=") + i)%nat = Some c.
Proof.
  do 2 eexists. split; [now apply generate_docx_accepted|].
  cbn [sr_headers Spec.response_of]. split; [reflexivity|].
  unfold Spec.attachment_filename. split.
  - rewrite !length_app, length_map. lia.
  - rewrite lookup_app_r by lia.
    replace (length (lit "attachment; filename=") + i
             - length (lit "attachment; filename="))%nat with i by lia.
    rewrite lookup_app_l
      by (rewrite length_map; now apply lookup_lt_Some in Hi).
    revert i Hi. induction (topic request) as [|d l IH]; intros [|i] Hi;
      try discriminate Hi; simpl in *.
    + injection Hi as ->. apply N.eqb_neq in Hc. now rewrite Hc.
    + now apply IH.
Qed.

(** C10, amended, at a topic of a tab, a slash, the two quotes and a
    backslash. *)
Lemma C10_other_characters_verbatim_witness :
  exists resp value,
    generate_docx host ∅ odd_topic_request = Ok resp /\
    sr_headers resp = [(lit "Content-Disposition", value)] /\
    length value
    = (length (lit "attachment; filename=") + length (topic odd_topic_request)
       + length (lit "_Recovery_Guide.docx"))%nat /\
    value !! (length (lit "attachment; filename=") + 1)%nat = Some SLASH.
Proof.
  apply (C10_other_characters_verbatim host ∅ odd_topic_request 1 SLASH).
  - reflexivity.
  - reflexivity.
  - unfold SLASH, SPACE. lia.
Defined.
(** ** The claims on [/generate-guide] *)

Lemma join_lines (l : list str) :
  l <> [] ->
  join [NL] l ++ [NL] = flat_map (fun x => x ++ [NL]) l.
Proof.
  induction l as [|x l IH]; intros Hl; [contradiction|].
  destruct l as [|y l].
  - simpl. now rewrite app_nil_r.
  - change (join [NL] (x :: y :: l)) with (x ++ [NL] ++ join [NL] (y :: l)).
    change (flat_map (fun x => x ++ [NL]) (x :: y :: l))
      with ((x ++ [NL]) ++ flat_map (fun x => x ++ [NL]) (y :: l)).
    rewrite <- IH by discriminate. now rewrite <- !app_assoc.
Qed.

Lemma flat_map_map {A B C} (f : A -> B) (g : B -> list C) l :
  flat_map g (List.map f l) = flat_map (fun x => g (f x)) l.
Proof. induction l as [|x l IH]; simpl; [reflexivity|now rewrite IH]. Qed.

Lemma Substring_head needle post : Substring needle (needle ++ post).
Proof. now exists [], post. Qed.

Lemma Substring_skip x needle hay :
  Substring needle hay -> Substring needle (x ++ hay).
Proof.
  intros (pre & post & ->). exists (x ++ pre), post.
  now rewrite <- app_assoc.
Qed.

(** C3. The prompt holds the topic, the tone and the format as they are
    given (a tone or format that is null prints as the word None), each on
    its labelled line, and one line "- " followed by the objective for
    every objective, these lines one after the other in the order of the
    objectives.  For topic "Stress", objectives "Breathe" and "Reflect",
    tone "Calm" and format "solo" the prompt contains "- Breathe",
    "- Reflect", "Calm" and "solo". *)
Theorem C3_prompt_embeds_fields :
  (forall request,
     exists head post,
       prompt_of request
       = (head ++ [NL])
         ++ flat_map (fun obj => lit "- " ++ obj ++ [NL])
              (g_objectives request)
         ++ post /\
       Substring (lit "Topic: " ++ g_topic request ++ [NL]) head /\
       Substring (lit "Tone: " ++ format_opt (g_tone request) ++ [NL]) post /\
       Substring (lit "Format: " ++ format_opt (g_format request) ++ [NL])
         post) /\
  (forall t o tone format,
     Substring t (prompt_of (mkGuideRequest t o (Some tone) (Some format))) /\
     Substring tone (prompt_of (mkGuideRequest t o (Some tone) (Some format))) /\
     Substring format
       (prompt_of (mkGuideRequest t o (Some tone) (Some format)))) /\
  (let prompt :=
     prompt_of (mkGuideRequest (lit "Stress") [lit "Breathe"; lit "Reflect"]
                  (Some (lit "Calm")) (Some (lit "solo"))) in
   contains prompt (lit "- Breathe") = true /\
   contains prompt (lit "- Reflect") = true /\
   contains prompt (lit "Calm") = true /\
   contains prompt (lit "solo") = true).
Proof.
  split; [|split].
  - intros [t objs tone fmt]. unfold prompt_of.
    cbn [g_topic g_objectives g_tone g_format].
    exists (lit "You are RecoveryPen AI, a trauma-informed assistant. Create a comprehensive, group-ready recovery guide on:

Topic: " ++ t ++ lit "

Objectives:").
    set (tail := lit "Tone: " ++ format_opt tone ++ lit "
Format: " ++ format_opt fmt ++ lit "

The guide should include:
- Clear headings and sections
- Practical strategies
- Realistic examples
- Bullet points and group discussion prompts
- Closing summary

Begin now.
").
    exists ((if objs is [] then [NL; NL] else [NL]) ++ tail).
    split; [|split; [|split]].
    + destruct objs as [|obj objs].
      * rewrite <- !app_assoc. reflexivity.
      * rewrite <- (flat_map_map (fun obj => lit "- " ++ obj)
                      (fun x => x ++ [NL])).
        rewrite <- join_lines by discriminate.
        rewrite <- !app_assoc. reflexivity.
    + exists (lit "You are RecoveryPen AI, a trauma-informed assistant. Create a comprehensive, group-ready recovery guide on:

"), (lit "
Objectives:").
      rewrite <- !app_assoc. reflexivity.
    + exists (if objs is [] then [NL; NL] else [NL]), (lit "Format: " ++ format_opt fmt ++ lit "

The guide should include:
- Clear headings and sections
- Practical strategies
- Realistic examples
- Bullet points and group discussion prompts
- Closing summary

Begin now.
").
      unfold tail. rewrite <- !app_assoc. reflexivity.
    + exists ((if objs is [] then [NL; NL] else [NL])
              ++ lit "Tone: " ++ format_opt tone ++ [NL]), (lit "
The guide should include:
- Clear headings and sections
- Practical strategies
- Realistic examples
- Bullet points and group discussion prompts
- Closing summary

Begin now.
").
      unfold tail. rewrite <- !app_assoc. reflexivity.
  - intros t o tone format. unfold prompt_of.
    cbn [g_topic g_objectives g_tone g_format format_opt].
    split; [|split].
    + apply Substring_skip, Substring_head.
    + do 5 apply Substring_skip. apply Substring_head.
    + do 7 apply Substring_skip. apply Substring_head.
  - vm_compute. repeat split.
Qed.

(** The three ways through [generate_guide]. *)
Lemma generate_guide_cases create request :
  generate_guide create request
  = match create (mkArgs (lit "gpt-4-turbo")
                    [mkMessage (lit "user") (prompt_of request)] 7 2000) with
    | Raise e =>
        Ok (<[ lit "guide" := JStr (lit "") ]>
              {[ lit "error" := JStr (py_str e) ]})
    | Ok response =>
        match choices response with
        | [] =>
            Ok (<[ lit "guide" := JStr (lit "") ]>
                  {[ lit "error" := JStr (py_str IndexError) ]})
        | choice :: _ =>
            Ok {[ lit "guide" := json_of_opt (m_content (message choice)) ]}
        end
    end.
Proof.
  unfold generate_guide, try_except, getitem.
  destruct (create _) as [response|e]; [|reflexivity].
  destruct (choices response); reflexivity.
Qed.

(** C2. When the completion call raises, [generate_guide] returns the
    body with an empty guide and the string of the exception under
    "error", not empty when the exception has a message; it returns a body
    whatever the service does, so the answer has status 200; when the
    service answers with a text, the body has that text under "guide" and
    no "error" key. *)
Theorem C2_generate_guide_reports_errors :
  forall (create : completion_args -> result ChatCompletion) request,
    (exists body, generate_guide create request = Ok body) /\
    status_code (generate_guide create request) = 200%Z /\
    (forall e,
       create (mkArgs (lit "gpt-4-turbo")
                 [mkMessage (lit "user") (prompt_of request)] 7 2000)
       = Raise e ->
       generate_guide create request
       = Ok (<[ lit "guide" := JStr (lit "") ]>
               {[ lit "error" := JStr (py_str e) ]}) /\
       (<[ lit "guide" := JStr (lit "") ]>
          {[ lit "error" := JStr (py_str e) ]} : gmap (list N) json)
       !! lit "error" = Some (JStr (exc_str e)) /\
       (exc_str e <> lit "" -> JStr (py_str e) <> JStr (lit ""))) /\
    (forall response choice rest text,
       create (mkArgs (lit "gpt-4-turbo")
                 [mkMessage (lit "user") (prompt_of request)] 7 2000)
       = Ok response ->
       choices response = choice :: rest ->
       m_content (message choice) = Some text ->
       generate_guide create request = Ok {[ lit "guide" := JStr text ]} /\
       ({[ lit "guide" := JStr text ]} : gmap (list N) json) !! lit "error"
       = None).
Proof.
  intros create request. rewrite generate_guide_cases.
  destruct (create _) as [response|e] eqn:Hcreate.
  - destruct (choices response) as [|choice rest] eqn:Hchoices.
    + split; [eauto|]. split; [reflexivity|].
      split; [intros e He; discriminate He|].
      intros response' choice' rest' text Hr Hc Ht.
      injection Hr as <-. rewrite Hchoices in Hc. discriminate Hc.
    + split; [eauto|]. split; [reflexivity|].
      split; [intros e He; discriminate He|].
      intros response' choice' rest' text Hr Hc Ht.
      injection Hr as <-. rewrite Hchoices in Hc.
      injection Hc as <- <-. rewrite Ht. split; [reflexivity|].
      apply lookup_singleton_ne. vm_compute. discriminate.
  - split; [eauto|]. split; [reflexivity|].
    split; [|intros response' choice' rest' text Hr; discriminate Hr].
    intros e' He'. injection He' as <-.
    split; [reflexivity|]. split.
    + rewrite lookup_insert_ne by (vm_compute; discriminate).
      apply lookup_singleton_eq.
    + intros Hmsg Heq. injection Heq as Heq. now apply Hmsg.
Qed.

(** C2 at a service that refuses every call. *)
Lemma C2_generate_guide_reports_errors_witness :
  generate_guide failing_create stress_request
  = Ok (<[ lit "guide" := JStr (lit "") ]>
          {[ lit "error" := JStr (lit "quota exceeded") ]}) /\
  (<[ lit "guide" := JStr (lit "") ]>
     {[ lit "error" := JStr (lit "quota exceeded") ]} : gmap (list N) json)
  !! lit "error" = Some (JStr (lit "quota exceeded")) /\
  (lit "quota exceeded" <> lit "" ->
   JStr (lit "quota exceeded") <> JStr (lit "")).
Proof.
  apply (proj1 (proj2 (proj2
           (C2_generate_guide_reports_errors failing_create stress_request)))
           (Exc (lit "RateLimitError") (lit "quota exceeded"))).
  reflexivity.
Defined.

(** A response without choices is reported in the same way. *)
Lemma generate_guide_no_choices create request :
  create (mkArgs (lit "gpt-4-turbo")
            [mkMessage (lit "user") (prompt_of request)] 7 2000)
  = Ok (mkCompletion []) ->
  generate_guide create request
  = Ok (<[ lit "guide" := JStr (lit "") ]>
          {[ lit "error" := JStr (lit "list index out of range") ]}).
Proof. intros H. rewrite generate_guide_cases. now rewrite H. Qed.

(** ** The claim on the request model *)

Lemma parse_GuideRequest_tone body r :
  parse_GuideRequest body = Ok r ->
  field_opt_str body (lit "tone") (Some (lit "Empowering")) = Ok (g_tone r) /\
  field_opt_str body (lit "format") (Some (lit "group")) = Ok (g_format r).
Proof.
  unfold parse_GuideRequest.
  destruct (field_str body (lit "topic")); [|discriminate].
  destruct (field_list_str body (lit "objectives")); [|discriminate].
  destruct (field_opt_str body (lit "tone") _); [|discriminate].
  destruct (field_opt_str body (lit "format") _); [|discriminate].
  intros H. injection H as <-. now split.
Qed.

Lemma items_str_JStr name o : items_str name (List.map JStr o) = Ok o.
Proof. induction o as [|s o IH]; simpl; [reflexivity|now rewrite IH]. Qed.

(** C8. A body without the tone has the tone "Empowering" and a body
    without the format has the format "group"; a body without the topic or
    without the objectives is refused, and a body with these two alone is
    accepted with both defaults. *)
Theorem C8_request_defaults :
  (forall body r,
     body !! lit "tone" = None ->
     parse_GuideRequest body = Ok r ->
     g_tone r = Some (lit "Empowering")) /\
  (forall body r,
     body !! lit "format" = None ->
     parse_GuideRequest body = Ok r ->
     g_format r = Some (lit "group")) /\
  (forall body,
     body !! lit "topic" = None \/ body !! lit "objectives" = None ->
     exists e, parse_GuideRequest body = Raise e) /\
  (forall t o,
     parse_GuideRequest
       (<[ lit "topic" := JStr t ]>
          {[ lit "objectives" := JArr (List.map JStr o) ]})
     = Ok (mkGuideRequest t o (Some (lit "Empowering"))
             (Some (lit "group")))).
Proof.
  split; [|split; [|split]].
  - intros body r Hnone Hparse.
    apply parse_GuideRequest_tone in Hparse as [Htone _].
    unfold field_opt_str in Htone. rewrite Hnone in Htone.
    now injection Htone as <-.
  - intros body r Hnone Hparse.
    apply parse_GuideRequest_tone in Hparse as [_ Hformat].
    unfold field_opt_str in Hformat. rewrite Hnone in Hformat.
    now injection Hformat as <-.
  - intros body [Hnone|Hnone]; unfold parse_GuideRequest.
    + unfold field_str. rewrite Hnone. eauto.
    + destruct (field_str body (lit "topic")); [|eauto].
      unfold field_list_str. rewrite Hnone. eauto.
  - intros t o. unfold parse_GuideRequest, field_str, field_list_str,
      field_opt_str.
    rewrite lookup_insert_eq.
    rewrite lookup_insert_ne by (vm_compute; discriminate).
    rewrite lookup_singleton_eq, items_str_JStr.
    rewrite !lookup_insert_ne by (vm_compute; discriminate).
    rewrite !lookup_singleton_ne by (vm_compute; discriminate).
    reflexivity.
Qed.

(** C8 at a body with a topic and one objective. *)
Lemma C8_request_defaults_witness :
  parse_GuideRequest minimal_body
  = Ok (mkGuideRequest (lit "Stress") [lit "Breathe"]
          (Some (lit "Empowering")) (Some (lit "group"))) /\
  g_tone (mkGuideRequest (lit "Stress") [lit "Breathe"]
            (Some (lit "Empowering")) (Some (lit "group")))
  = Some (lit "Empowering").
Proof.
  split; [reflexivity|].
  apply (proj1 C8_request_defaults minimal_body).
  - reflexivity.
  - reflexivity.
Defined.


(** ** The claim on [/upload-doc] *)


(** An upload, case by case: the path is opened and the file it reaches
    holds the sent bytes afterwards, whatever it held, or the path is
    not opened, nothing is stored and the exception is raised. *)
Lemma upload_doc_cases env fs file :
  upload_doc env fs file
  = match Os.writable env (Os.path_join UPLOAD_FOLDER (filename file)) with
    | Some stored =>
        (<[ stored := file_bytes file ]> fs,
         Ok (Spec.upload_response (filename file)))
    | None =>
        (fs, Raise (open_error env fs
                      (Os.path_join UPLOAD_FOLDER (filename file))))
    end.
Proof.
  unfold upload_doc, Os.open_wb, Os.write, read.
  destruct (Os.writable env _) as [stored|]; [|reflexivity].
  now rewrite alter_insert_eq.
Qed.




(** * Further properties *)

(** ** [/upload-doc]: how uploads compose *)


(** X2. Of two uploads under one file name the second wins: the file
    system after both is the one after the second alone.  Uploading the
    same file twice is uploading it once. *)
Theorem X2_upload_last_write_wins env fs first second
    (Hname : filename first = filename second) :
  fst (upload_doc env (fst (upload_doc env fs first)) second)
  = fst (upload_doc env fs second).
Proof.
  rewrite !upload_doc_cases, Hname.
  destruct (Os.writable env _) as [stored|]; cbn [fst]; [|reflexivity].
  apply insert_insert_eq.
Qed.

(** X2 at two uploads of "notes.txt". *)
Lemma X2_upload_last_write_wins_witness :
  fst (upload_doc host (fst (upload_doc host ∅ notes_txt))
         (mkUploadFile (lit "notes.txt") [x78; x79]))
  = fst (upload_doc host ∅ (mkUploadFile (lit "notes.txt") [x78; x79])).
Proof.
  apply (X2_upload_last_write_wins host ∅ notes_txt
           (mkUploadFile (lit "notes.txt") [x78; x79])).
  reflexivity.
Defined.





(** X26. Two file names that reach one file are one upload target: of
    two uploads under such names the second wins, as with one name.
    The names "a" and "./a" are such a pair. *)
Theorem X26_names_of_one_file env fs first second
    (Hsame : Os.writable env (Os.path_join UPLOAD_FOLDER (filename first))
             = Os.writable env (Os.path_join UPLOAD_FOLDER (filename second))) :
  fst (upload_doc env (fst (upload_doc env fs first)) second)
  = fst (upload_doc env fs second).
Proof.
  rewrite !upload_doc_cases, Hsame. clear Hsame.
  destruct (Os.writable env (Os.path_join UPLOAD_FOLDER (filename second)))
    as [stored|]; cbn [fst]; [|reflexivity].
  apply insert_insert_eq.
Qed.

(** X26 at the uploads of "a" and of "./a". *)
Lemma X26_names_of_one_file_witness :
  fst (upload_doc host (fst (upload_doc host ∅ (mkUploadFile (lit "a") [x61])))
         (mkUploadFile (lit "./a") [x62]))
  = fst (upload_doc host ∅ (mkUploadFile (lit "./a") [x62])).
Proof.
  apply (X26_names_of_one_file host ∅ (mkUploadFile (lit "a") [x61])
           (mkUploadFile (lit "./a") [x62])).
  reflexivity.
Defined.
(** ** [/generate-guide]: the call of the service and its answers *)

(** X5. A response without choices is reported like a failure of the
    call: the guide is empty and the error is the message of the index
    error, with status 200. *)
Theorem X5_no_choices_reported create request
    (Hcreate :
       create (mkArgs (lit "gpt-4-turbo")
                 [mkMessage (lit "user") (prompt_of request)] 7 2000)
       = Ok (mkCompletion [])) :
  generate_guide create request
  = Ok (<[ lit "guide" := JStr (lit "") ]>
          {[ lit "error" := JStr (lit "list index out of range") ]}) /\
  status_code (generate_guide create request) = 200%Z.
Proof.
  rewrite generate_guide_cases, Hcreate. now split.
Qed.

(** X5 at a service that answers without choices. *)
Lemma X5_no_choices_reported_witness :
  generate_guide (fun _ => Ok (mkCompletion [])) stress_request
  = Ok (<[ lit "guide" := JStr (lit "") ]>
          {[ lit "error" := JStr (lit "list index out of range") ]}) /\
  status_code (generate_guide (fun _ => Ok (mkCompletion [])) stress_request)
  = 200%Z.
Proof.
  apply (X5_no_choices_reported (fun _ => Ok (mkCompletion []))
           stress_request).
  reflexivity.
Defined.

(** X6. Of a response only the first choice is read: the body has its
    content under "guide", the JSON null when the content is [None], and
    no "error" key; the other choices change nothing. *)
Theorem X6_first_choice_only create request response choice rest
    (Hcreate :
       create (mkArgs (lit "gpt-4-turbo")
                 [mkMessage (lit "user") (prompt_of request)] 7 2000)
       = Ok response)
    (Hchoices : choices response = choice :: rest) :
  generate_guide create request
  = Ok {[ lit "guide" :=
            match m_content (message choice) with
            | Some text => JStr text
            | None => JNull
            end ]} /\
  forall body,
    generate_guide create request = Ok body ->
    body !! lit "error" = None /\ dom body = {[ lit "guide" ]}.
Proof.
  rewrite generate_guide_cases, Hcreate, Hchoices.
  split; [reflexivity|].
  intros body Hbody. injection Hbody as <-. split.
  - apply lookup_singleton_ne. vm_compute. discriminate.
  - apply dom_singleton_L.
Qed.

(** X6 at a response of two choices, the first without content. *)
Lemma X6_first_choice_only_witness :
  let create := fun _ : completion_args =>
    Ok (mkCompletion [mkChoice (mkChatMessage None);
                      mkChoice (mkChatMessage (Some (lit "second")))]) in
  generate_guide create stress_request = Ok {[ lit "guide" := JNull ]} /\
  forall body,
    generate_guide create stress_request = Ok body ->
    body !! lit "error" = None /\ dom body = {[ lit "guide" ]}.
Proof.
  apply (X6_first_choice_only _ stress_request
           (mkCompletion [mkChoice (mkChatMessage None);
                          mkChoice (mkChatMessage (Some (lit "second")))])
           (mkChoice (mkChatMessage None))
           [mkChoice (mkChatMessage (Some (lit "second")))]).
  - reflexivity.
  - reflexivity.
Defined.

(** X7. The service is asked one thing only: the model "gpt-4-turbo",
    one message of the role "user" whose content is the prompt, the
    temperature 0.7 and at most 2000 tokens.  Two services that answer
    this call alike give the same body. *)
Theorem X7_one_call_of_the_service create create' request
    (Hsame :
       create (mkArgs (lit "gpt-4-turbo")
                 [mkMessage (lit "user") (prompt_of request)] 7 2000)
       = create' (mkArgs (lit "gpt-4-turbo")
                    [mkMessage (lit "user") (prompt_of request)] 7 2000)) :
  generate_guide create request = generate_guide create' request.
Proof. now rewrite !generate_guide_cases, Hsame. Qed.

(** X7 at two services that differ on other calls only. *)
Lemma X7_one_call_of_the_service_witness :
  generate_guide failing_create stress_request
  = generate_guide
      (fun args =>
         if (max_tokens args =? 2000)%Z then failing_create args
         else Ok (mkCompletion []))
      stress_request.
Proof.
  apply (X7_one_call_of_the_service failing_create
           (fun args =>
              if (max_tokens args =? 2000)%Z then failing_create args
              else Ok (mkCompletion []))
           stress_request).
  reflexivity.
Defined.

Lemma join_merge sep (before : list str) x y after :
  join sep (before ++ (x ++ sep ++ y) :: after)
  = join sep (before ++ x :: y :: after).
Proof.
  induction before as [|w before IH].
  - destruct after as [|z after]; simpl; [reflexivity|].
    now rewrite <- !app_assoc.
  - destruct before as [|w' before].
    + simpl in *. now rewrite IH.
    + change (join sep ((w :: w' :: before) ++ (x ++ sep ++ y) :: after))
        with (w ++ sep
              ++ join sep ((w' :: before) ++ (x ++ sep ++ y) :: after)).
      rewrite IH. reflexivity.
Qed.

(** X8. Objectives are written into the prompt as they come: one
    objective that holds a newline followed by "- " gives the same prompt
    as two objectives, so the prompt does not tell the two requests
    apart. *)
Theorem X8_objectives_not_escaped t tone format before a b after :
  prompt_of
    (mkGuideRequest t (before ++ (a ++ [NL] ++ lit "- " ++ b) :: after)
       tone format)
  = prompt_of (mkGuideRequest t (before ++ a :: b :: after) tone format).
Proof.
  unfold prompt_of. cbn [g_topic g_objectives g_tone g_format].
  do 3 f_equal. rewrite !map_app. cbn [List.map].
  replace (lit "- " ++ a ++ [NL] ++ lit "- " ++ b)
    with ((lit "- " ++ a) ++ [NL] ++ (lit "- " ++ b))
    by now rewrite <- !app_assoc.
  now rewrite join_merge.
Qed.

(** X9. A body whose tone is the JSON null is accepted, and the prompt
    made from it reads "Tone: None"; the same holds for the format. *)
Theorem X9_null_prints_None :
  (forall body r,
     body !! lit "tone" = Some JNull ->
     parse_GuideRequest body = Ok r ->
     g_tone r = None /\
     Substring (lit "Tone: None
Format: ") (prompt_of r)) /\
  (forall body r,
     body !! lit "format" = Some JNull ->
     parse_GuideRequest body = Ok r ->
     g_format r = None /\
     Substring (lit "Format: None

The guide should include:") (prompt_of r)) /\
  (forall t o,
     parse_GuideRequest
       (<[ lit "tone" := JNull ]>
          (<[ lit "topic" := JStr t ]>
             {[ lit "objectives" := JArr (List.map JStr o) ]}))
     = Ok (mkGuideRequest t o None (Some (lit "group")))).
Proof.
  split; [|split].
  - intros body [t o tone format] Hnull Hparse.
    apply parse_GuideRequest_tone in Hparse as [Htone _].
    unfold field_opt_str in Htone. rewrite Hnull in Htone.
    cbn [g_tone] in *. injection Htone as <-. split; [reflexivity|].
    unfold prompt_of. cbn [g_topic g_objectives g_tone g_format format_opt].
    do 4 apply Substring_skip.
    exists [NL; NL], (format_opt format ++ lit "

The guide should include:
- Clear headings and sections
- Practical strategies
- Realistic examples
- Bullet points and group discussion prompts
- Closing summary

Begin now.
").
    reflexivity.
  - intros body [t o tone format] Hnull Hparse.
    apply parse_GuideRequest_tone in Hparse as [_ Hformat].
    unfold field_opt_str in Hformat. rewrite Hnull in Hformat.
    cbn [g_format] in *. injection Hformat as <-. split; [reflexivity|].
    unfold prompt_of. cbn [g_topic g_objectives g_tone g_format format_opt].
    do 6 apply Substring_skip.
    exists [NL], (lit "
- Clear headings and sections
- Practical strategies
- Realistic examples
- Bullet points and group discussion prompts
- Closing summary

Begin now.
").
    reflexivity.
  - intros t o. unfold parse_GuideRequest, field_str, field_list_str,
      field_opt_str.
    rewrite lookup_insert_ne by (vm_compute; discriminate).
    rewrite lookup_insert_eq.
    rewrite !lookup_insert_ne by (vm_compute; discriminate).
    rewrite lookup_singleton_eq, items_str_JStr.
    rewrite lookup_insert_eq.
    rewrite !lookup_insert_ne by (vm_compute; discriminate).
    rewrite !lookup_singleton_ne by (vm_compute; discriminate).
    reflexivity.
Qed.

(** X9 at a body with a null tone. *)
Lemma X9_null_prints_None_witness :
  g_tone (mkGuideRequest (lit "Stress") [lit "Breathe"] None
            (Some (lit "group"))) = None /\
  Substring (lit "Tone: None
Format: ")
    (prompt_of (mkGuideRequest (lit "Stress") [lit "Breathe"] None
                  (Some (lit "group")))).
Proof.
  apply (proj1 X9_null_prints_None
           (<[ lit "tone" := JNull ]> minimal_body)).
  - reflexivity.
  - reflexivity.
Defined.

(** ** The request models *)

(** Lookups in a body written out key by key. *)
Ltac lookup_keys :=
  repeat first
    [ rewrite lookup_insert_eq
    | rewrite lookup_insert_ne by (vm_compute; discriminate)
    | rewrite lookup_singleton_eq
    | rewrite lookup_singleton_ne by (vm_compute; discriminate)
    | rewrite items_str_JStr ].

(** X10. A body for [/generate-docx] without the upload summary, or with
    null for it, has no upload summary; topic, objectives and guide are
    required, and a body with these three alone is accepted. *)
Theorem X10_docx_request_defaults :
  (forall body r,
     body !! lit "upload_summary" = None \/
     body !! lit "upload_summary" = Some JNull ->
     parse_DocxRequest body = Ok r ->
     upload_summary r = None) /\
  (forall body,
     body !! lit "topic" = None \/ body !! lit "objectives" = None \/
     body !! lit "guide" = None ->
     exists e, parse_DocxRequest body = Raise e) /\
  (forall t o g,
     parse_DocxRequest
       (<[ lit "topic" := JStr t ]>
          (<[ lit "objectives" := JArr (List.map JStr o) ]>
             {[ lit "guide" := JStr g ]}))
     = Ok (mkDocxRequest t o g None)).
Proof.
  split; [|split].
  - intros body r Hsum. unfold parse_DocxRequest.
    destruct (field_str body (lit "topic")); [|discriminate].
    destruct (field_list_str body (lit "objectives")); [|discriminate].
    destruct (field_str body (lit "guide")); [|discriminate].
    unfold field_opt_str.
    destruct Hsum as [-> | ->]; intros H; now injection H as <-.
  - intros body Hnone. unfold parse_DocxRequest.
    destruct Hnone as [Hnone|[Hnone|Hnone]].
    + unfold field_str at 1. rewrite Hnone. eauto.
    + destruct (field_str body (lit "topic")); [|eauto].
      unfold field_list_str. rewrite Hnone. eauto.
    + destruct (field_str body (lit "topic")); [|eauto].
      destruct (field_list_str body (lit "objectives")); [|eauto].
      unfold field_str. rewrite Hnone. eauto.
  - intros t o g. unfold parse_DocxRequest, field_str, field_list_str,
      field_opt_str.
    lookup_keys. reflexivity.
Qed.

(** X10 at a body of topic, objectives and guide. *)
Lemma X10_docx_request_defaults_witness :
  upload_summary (mkDocxRequest (lit "My Plan") [] (lit "Intro") None) = None.
Proof.
  apply (proj1 X10_docx_request_defaults
           (<[ lit "topic" := JStr (lit "My Plan") ]>
              (<[ lit "objectives" := JArr [] ]>
                 {[ lit "guide" := JStr (lit "Intro") ]}))).
  - left. reflexivity.
  - reflexivity.
Defined.

(** X11. Every request is the validation of its own body: the body that
    holds the fields of a request, null for an absent optional field, is
    accepted and gives the request back, for both models. *)
Theorem X11_request_round_trip :
  (forall r, parse_GuideRequest (View.body_of_GuideRequest r) = Ok r) /\
  (forall r, parse_DocxRequest (View.body_of_DocxRequest r) = Ok r).
Proof.
  split.
  - intros [t o tone format].
    unfold parse_GuideRequest, View.body_of_GuideRequest, field_str,
      field_list_str, field_opt_str.
    cbn [g_topic g_objectives g_tone g_format].
    lookup_keys. now destruct tone, format.
  - intros [t o g u].
    unfold parse_DocxRequest, View.body_of_DocxRequest, field_str,
      field_list_str, field_opt_str.
    cbn [topic objectives guide upload_summary].
    lookup_keys. now destruct u.
Qed.
(** ** More on strings *)

Lemma split_length sep s : length (split sep s) = S (View.count sep s).
Proof.
  unfold View.count. induction s as [|c s IH]; simpl; [reflexivity|].
  destruct (N.eqb_spec c sep) as [->|Hne].
  - destruct (N.eq_dec sep sep) as [_|Hn]; [|contradiction]. simpl. now rewrite IH.
  - destruct (N.eq_dec c sep) as [He|_]; [contradiction|].
    destruct (split sep s); simpl in *; [discriminate IH|exact IH].
Qed.


Lemma split_cons_no_sep sep c s :
  c <> sep ->
  split sep (c :: s)
  = match split sep s with
    | [] => [[c]]
    | l :: ls => (c :: l) :: ls
    end.
Proof. intros H. simpl. apply N.eqb_neq in H. now rewrite H. Qed.

Lemma split_app_no_sep sep p s :
  ~ In sep p ->
  split sep (p ++ s)
  = match split sep s with
    | [] => [p]
    | l :: ls => (p ++ l) :: ls
    end.
Proof.
  induction p as [|c p IH]; intros Hp.
  - simpl. pose proof (split_nonempty sep s). now destruct (split sep s).
  - change ((c :: p) ++ s) with (c :: (p ++ s)).
    rewrite split_cons_no_sep by (intros ->; apply Hp; now left).
    rewrite IH by (intros H; apply Hp; now right).
    now destruct (split sep s).
Qed.

(** Splitting what was joined gives the pieces back, when no piece holds
    the separator. *)
Lemma split_join sep parts :
  parts <> [] ->
  Forall (fun p => ~ In sep p) parts ->
  split sep (join [sep] parts) = parts.
Proof.
  induction parts as [|p parts IH]; intros Hne Hall; [contradiction|].
  inversion Hall as [|? ? Hp Hrest]; subst.
  destruct parts as [|q parts].
  - simpl. rewrite <- (app_nil_r p) at 1.
    rewrite split_app_no_sep by exact Hp. simpl. now rewrite app_nil_r.
  - change (join [sep] (p :: q :: parts))
      with (p ++ sep :: join [sep] (q :: parts)).
    rewrite split_app_no_sep by exact Hp.
    assert (Hs : split sep (sep :: join [sep] (q :: parts))
                 = [] :: q :: parts).
    { simpl split. rewrite N.eqb_refl. f_equal.
      apply IH; [discriminate|exact Hrest]. }
    rewrite Hs. now rewrite app_nil_r.
Qed.

Lemma rstrip_app_space s c : is_space c = true -> rstrip (s ++ [c]) = rstrip s.
Proof.
  intros Hc. induction s as [|d s IH]; simpl.
  - now rewrite Hc.
  - now rewrite IH.
Qed.

Lemma lstrip_app_space s c :
  is_space c = true ->
  lstrip (s ++ [c]) = match lstrip s with [] => [] | t => t ++ [c] end.
Proof.
  intros Hc. induction s as [|d s IH]; simpl.
  - now rewrite Hc.
  - destruct (is_space d); [exact IH|reflexivity].
Qed.

(** White space at the end of a string does not change what [strip]
    gives. *)
Lemma strip_app_space s c : is_space c = true -> strip (s ++ [c]) = strip s.
Proof.
  intros Hc. unfold strip. rewrite lstrip_app_space by exact Hc.
  destruct (lstrip s) as [|d t]; [reflexivity|].
  now apply rstrip_app_space.
Qed.

Lemma rstrip_last s t c : rstrip s = t ++ [c] -> is_space c = false.
Proof.
  revert t. induction s as [|d s IH]; intros t H; simpl in H.
  - now destruct t.
  - destruct (rstrip s) as [|e r] eqn:E.
    + destruct (is_space d) eqn:Hd; [now destruct t|].
      destruct t as [|? t]; [now injection H as <-|].
      injection H as _ H. now destruct t.
    + destruct t as [|? t]; [discriminate H|].
      injection H as _ H. now apply (IH t).
Qed.

Lemma rstrip_head s c t :
  rstrip s = c :: t -> exists s', s = c :: s'.
Proof.
  destruct s as [|d s]; simpl; [discriminate|].
  destruct (rstrip s); [destruct (is_space d)|]; intros H;
    try discriminate H; injection H as <- _; eauto.
Qed.

(** What [strip] gives neither starts nor ends with white space. *)
Lemma strip_ends s :
  (forall c t, strip s = c :: t -> is_space c = false) /\
  (forall t c, strip s = t ++ [c] -> is_space c = false).
Proof.
  unfold strip. split.
  - intros c t H. apply rstrip_head in H as [s' H].
    now apply lstrip_head in H.
  - intros t c H. now apply rstrip_last in H.
Qed.

(** Every character of the stripped string is one of the string. *)
Lemma strip_In s c : In c (strip s) -> In c s.
Proof.
  intros H. destruct (strip_spec s) as (l & r & Hs & _).
  rewrite Hs. apply in_or_app. right. apply in_or_app. now left.
Qed.


Lemma classify_line_text line :
  View.paragraph_text (Spec.classify_line line) = strip line.
Proof.
  unfold Spec.classify_line.
  destruct (strip line) as [|c t]; [reflexivity|].
  destruct (c =? DASH); cbn; rewrite ?app_nil_r; reflexivity.
Qed.

(** The paragraph of a line is decided by the stripped line. *)
Lemma classify_line_strip line line' :
  strip line = strip line' ->
  Spec.classify_line line = Spec.classify_line line'.
Proof. unfold Spec.classify_line. now intros ->. Qed.

(** ** [/generate-docx]: more on the assembled document *)

(** The body of the document of a request that gets a response. *)
Lemma accepted_body env fs request :
  Spec.accepted env fs request = true ->
  exists resp,
    generate_docx env fs request = Ok resp /\
    resp = Spec.response_of (Spec.logo_paragraphs env fs) request.
Proof. intros H. eexists. split; [now apply generate_docx_accepted|reflexivity]. Qed.

(** X13. For a request that gets a response, an upload summary that is
    not empty closes the document: the body ends with the level-2
    heading "Upload Summary" and one plain paragraph with the summary,
    after the paragraphs of the guide. *)
Theorem X13_summary_closes_document env fs request summary
    (Haccepted : Spec.accepted env fs request = true)
    (Hsummary : upload_summary request = Some summary)
    (Hnonempty : summary <> lit "") :
  exists resp,
    generate_docx env fs request = Ok resp /\
    d_body (sr_content resp)
    = (Spec.logo_paragraphs env fs ++ [Spec.title_block; Spec.page_break]
       ++ Spec.objectives_part request ++ Spec.guide_part request)
      ++ [mkParagraph (Some (lit "Heading 2")) None
            [mkRun [Text (lit "Upload Summary")] None None];
          mkParagraph None None [mkRun [Text summary] None None]].
Proof.
  destruct (accepted_body env fs request Haccepted) as (resp & Hresp & ->).
  eexists. split; [exact Hresp|].
  cbn [sr_content Spec.response_of d_body Spec.document_of].
  unfold Spec.summary_part. rewrite Hsummary.
  destruct summary as [|c s]; [contradiction|].
  now rewrite <- !app_assoc.
Qed.

(** X13 at a request with the summary "notes". *)
Lemma X13_summary_closes_document_witness :
  exists resp,
    generate_docx host ∅ plan_request = Ok resp /\
    d_body (sr_content resp)
    = (Spec.logo_paragraphs host ∅ ++ [Spec.title_block; Spec.page_break]
       ++ Spec.objectives_part plan_request ++ Spec.guide_part plan_request)
      ++ [mkParagraph (Some (lit "Heading 2")) None
            [mkRun [Text (lit "Upload Summary")] None None];
          mkParagraph None None [mkRun [Text (lit "notes")] None None]].
Proof.
  apply (X13_summary_closes_document host ∅ plan_request (lit "notes")).
  - reflexivity.
  - reflexivity.
  - discriminate.
Defined.

(** X14. The number of body paragraphs of a request that gets a
    response: one for the logo when there is one, the title block, the
    page break, three headings, one paragraph per objective, one per
    line of the guide (its newlines plus one), and two more for an
    upload summary that is not empty. *)
Theorem X14_paragraph_count env fs request
    (Haccepted : Spec.accepted env fs request = true) :
  exists resp,
    generate_docx env fs request = Ok resp /\
    length (d_body (sr_content resp))
    = ((if Os.path_exists env fs (Os.path_join STATIC_FOLDER (lit "logo.png"))
        then 1 else 0)
       + 5 + length (objectives request)
       + S (View.count NL (guide request))
       + (match upload_summary request with
          | Some (_ :: _) => 2
          | _ => 0
          end))%nat.
Proof.
  destruct (accepted_body env fs request Haccepted) as (resp & Hresp & ->).
  eexists. split; [exact Hresp|].
  cbn [sr_content Spec.response_of d_body Spec.document_of].
  change (Os.path_join STATIC_FOLDER (lit "logo.png")) with Spec.logo_path.
  assert (Hlogo : length (Spec.logo_paragraphs env fs)
                  = if Os.path_exists env fs Spec.logo_path then 1%nat
                    else 0%nat).
  { destruct (Os.path_exists env fs Spec.logo_path) eqn:E.
    - destruct (logo_paragraphs_present env fs request E
                  (proj1 (accepted_assembled env fs request Haccepted)))
        as (image & _ & _ & ->). reflexivity.
    - now rewrite (logo_paragraphs_absent env fs E). }
  unfold Spec.objectives_part, Spec.guide_part, Spec.summary_part.
  rewrite !length_app, Hlogo. cbn [length].
  rewrite !length_map, split_length.
  destruct (Os.path_exists env fs Spec.logo_path);
    destruct (upload_summary request) as [[|c s]|]; cbn [length]; lia.
Qed.

(** X14 at a request of one objective, one line and a summary, on a
    host with a logo. *)
Lemma X14_paragraph_count_witness :
  exists resp,
    generate_docx host with_logo plan_request = Ok resp /\
    length (d_body (sr_content resp)) = 10%nat.
Proof.
  apply (X14_paragraph_count host with_logo plan_request).
  vm_compute. reflexivity.
Defined.

(** X15. For a request that gets a response the paragraphs of the guide
    hold the stripped lines: the texts they were given are the lines of
    the guide, each stripped, and no such text holds a line feed or
    starts or ends with white space. *)
Theorem X15_guide_paragraph_texts env fs request
    (Haccepted : Spec.accepted env fs request = true) :
  exists resp lines,
    generate_docx env fs request = Ok resp /\
    d_body (sr_content resp)
    = (Spec.logo_paragraphs env fs ++ [Spec.title_block; Spec.page_break]
       ++ Spec.objectives_part request
       ++ [Spec.heading 2 (lit "Recovery Guide")])
      ++ lines ++ Spec.summary_part request /\
    List.map View.paragraph_text lines
    = List.map strip (split NL (guide request)) /\
    Forall (fun p =>
              ~ In NL (View.paragraph_text p) /\
              (forall c t, View.paragraph_text p = c :: t ->
                           is_space c = false) /\
              (forall t c, View.paragraph_text p = t ++ [c] ->
                           is_space c = false))
      lines.
Proof.
  exists (Spec.response_of (Spec.logo_paragraphs env fs) request),
    (List.map Spec.classify_line (split NL (guide request))).
  split; [now apply generate_docx_accepted|]. split; [|split].
  - cbn [sr_content Spec.response_of d_body Spec.document_of].
    unfold Spec.guide_part.
    rewrite <- !app_assoc. reflexivity.
  - rewrite map_map. apply map_ext. apply classify_line_text.
  - apply List.Forall_forall. intros p Hp.
    apply in_map_iff in Hp as (line & <- & Hline).
    rewrite classify_line_text. split; [|apply strip_ends].
    intros Hnl. apply strip_In in Hnl.
    now apply (split_no_sep NL (guide request) line).
Qed.

(** X15 at the request for "My Plan". *)
Lemma X15_guide_paragraph_texts_witness :
  exists resp lines,
    generate_docx host ∅ plan_request = Ok resp /\
    d_body (sr_content resp)
    = (Spec.logo_paragraphs host ∅ ++ [Spec.title_block; Spec.page_break]
       ++ Spec.objectives_part plan_request
       ++ [Spec.heading 2 (lit "Recovery Guide")])
      ++ lines ++ Spec.summary_part plan_request /\
    List.map View.paragraph_text lines
    = List.map strip (split NL (guide plan_request)) /\
    Forall (fun p =>
              ~ In NL (View.paragraph_text p) /\
              (forall c t, View.paragraph_text p = c :: t ->
                           is_space c = false) /\
              (forall t c, View.paragraph_text p = t ++ [c] ->
                           is_space c = false))
      lines.
Proof.
  apply (X15_guide_paragraph_texts host ∅ plan_request).
  reflexivity.
Defined.

(** X16. For a request that gets a response, a guide whose lines carry
    no white space at their ends, and that holds no carriage return
    (which the library writes as a line break), can be read back from
    the document: the texts of its paragraphs, joined by newlines, are
    the guide. *)
Theorem X16_guide_read_back env fs request
    (Haccepted : Spec.accepted env fs request = true)
    (Hstripped : Forall (fun line => strip line = line)
                   (split NL (guide request)))
    (Hcr : existsb (N.eqb 13) (guide request) = false) :
  exists resp lines,
    generate_docx env fs request = Ok resp /\
    d_body (sr_content resp)
    = (Spec.logo_paragraphs env fs ++ [Spec.title_block; Spec.page_break]
       ++ Spec.objectives_part request
       ++ [Spec.heading 2 (lit "Recovery Guide")])
      ++ lines ++ Spec.summary_part request /\
    length lines = length (split NL (guide request)) /\
    join [NL] (List.map View.paragraph_text lines) = guide request.
Proof.
  exists (Spec.response_of (Spec.logo_paragraphs env fs) request),
    (List.map Spec.classify_line (split NL (guide request))).
  split; [now apply generate_docx_accepted|]. split; [|split].
  - cbn [sr_content Spec.response_of d_body Spec.document_of].
    unfold Spec.guide_part.
    rewrite <- !app_assoc. reflexivity.
  - apply length_map.
  - rewrite map_map.
    rewrite (map_ext_in _ (fun line => line)).
    + rewrite map_id. apply join_split.
    + intros line Hline. rewrite classify_line_text.
      rewrite List.Forall_forall in Hstripped. now apply Hstripped.
Qed.

(** X16 at a guide of one stripped line. *)
Lemma X16_guide_read_back_witness :
  exists resp lines,
    generate_docx host ∅ plan_request = Ok resp /\
    d_body (sr_content resp)
    = (Spec.logo_paragraphs host ∅ ++ [Spec.title_block; Spec.page_break]
       ++ Spec.objectives_part plan_request
       ++ [Spec.heading 2 (lit "Recovery Guide")])
      ++ lines ++ Spec.summary_part plan_request /\
    length lines = length (split NL (guide plan_request)) /\
    join [NL] (List.map View.paragraph_text lines) = guide plan_request.
Proof.
  apply (X16_guide_read_back host ∅ plan_request).
  - reflexivity.
  - repeat constructor.
  - reflexivity.
Defined.

(** The outcome is a function of the stripped lines of the guide. *)
Lemma same_stripped_lines env fs t o g g' u :
  List.map strip (split NL g) = List.map strip (split NL g') ->
  generate_docx env fs (mkDocxRequest t o g u)
  = generate_docx env fs (mkDocxRequest t o g' u).
Proof.
  intros Hlines.
  assert (Hc : forall lines,
             List.map Spec.classify_line lines
             = List.map (fun s => match s with
                                  | [] => Spec.blank_paragraph
                                  | c :: r =>
                                      if c =? DASH
                                      then Spec.bulleted_paragraph (c :: r)
                                      else Spec.plain_paragraph (c :: r)
                                  end)
                 (List.map strip lines))
    by (intros lines; now rewrite map_map).
  assert (Ht : Spec.texts (mkDocxRequest t o g u)
               = Spec.texts (mkDocxRequest t o g' u))
    by (unfold Spec.texts; cbn [guide]; now rewrite Hlines).
  assert (Hr : forall logo,
             Spec.response_of logo (mkDocxRequest t o g u)
             = Spec.response_of logo (mkDocxRequest t o g' u)).
  { intros logo. unfold Spec.response_of, Spec.document_of, Spec.guide_part.
    cbn [guide]. now rewrite !Hc, Hlines. }
  rewrite !generate_docx_cases, Ht.
  destruct (Spec.logo_part env fs) as [logo|e]; [|reflexivity].
  now rewrite Hr.
Qed.

(** X17. Only the stripped lines of the guide count: two guides whose
    lines agree after stripping give the same response. *)
Theorem X17_line_ends_do_not_matter env fs t o g g' u
    (Hlines : List.map strip (split NL g) = List.map strip (split NL g')) :
  generate_docx env fs (mkDocxRequest t o g u)
  = generate_docx env fs (mkDocxRequest t o g' u).
Proof. now apply same_stripped_lines. Qed.

(** X17 at a guide and the same guide with padded lines. *)
Lemma X17_line_ends_do_not_matter_witness :
  generate_docx host ∅
    (mkDocxRequest (lit "My Plan") [] (lit "Intro
- Step one") None)
  = generate_docx host ∅
      (mkDocxRequest (lit "My Plan") [] (lit "  Intro  
   - Step one ") None).
Proof.
  apply (X17_line_ends_do_not_matter host ∅ (lit "My Plan") [] _ _ None).
  reflexivity.
Defined.

(** The lines of a text with CR LF line ends are the lines of the text
    with LF line ends, some with a CR at the end. *)
Lemma split_crlf g :
  Forall2 (fun a b => a = b \/ a = b ++ [13])
    (split NL (replace NL [13; NL] g)) (split NL g).
Proof.
  induction g as [|c g IH].
  - simpl. constructor; [now left|constructor].
  - destruct (N.eq_dec c NL) as [->|Hne].
    + change (split NL (replace NL [13; NL] (NL :: g)))
        with ([13] :: split NL (replace NL [13; NL] g)).
      change (split NL (NL :: g)) with ([] :: split NL g).
      constructor; [now right|exact IH].
    + assert (Hr : replace NL [13; NL] (c :: g)
                   = c :: replace NL [13; NL] g).
      { simpl. apply N.eqb_neq in Hne. now rewrite Hne. }
      rewrite Hr, !split_cons_no_sep by exact Hne.
      destruct IH as [|a b ls ls' Hab Hrest]; [constructor; [now left|constructor]|].
      constructor; [|exact Hrest].
      destruct Hab as [->| ->]; [now left|now right].
Qed.

(** X18. Line ends of CR LF give the same document as line ends of LF:
    writing every newline of the guide as CR LF does not change the
    response. *)
Theorem X18_crlf_line_ends env fs t o g u :
  generate_docx env fs (mkDocxRequest t o (replace NL [13; NL] g) u)
  = generate_docx env fs (mkDocxRequest t o g u).
Proof.
  apply same_stripped_lines.
  pose proof (split_crlf g) as H.
  induction H as [|a b ls ls' Hab _ IH]; [reflexivity|].
  simpl. rewrite IH. f_equal.
  destruct Hab as [->| ->]; [reflexivity|].
  now apply strip_app_space.
Qed.







(** X21. For a request that gets a response the attachment name holds
    no space of the topic: the part before the suffix is as long as the
    topic and has no space in it, and when the topic written with
    underscores for its spaces gets a response too, it gets the same
    name. *)
Theorem X21_no_space_in_filename env fs request
    (Haccepted : Spec.accepted env fs request = true)
    (Haccepted' : Spec.accepted env fs
                    (mkDocxRequest (replace SPACE (lit "_") (topic request))
                       (objectives request) (guide request)
                       (upload_summary request)) = true) :
  exists resp resp' stem,
    generate_docx env fs request = Ok resp /\
    sr_headers resp
    = [(lit "Content-Disposition",
        lit "attachment; filename=" ++ stem ++ lit "_Recovery_Guide.docx")] /\
    length stem = length (topic request) /\
    ~ In SPACE stem /\
    generate_docx env fs
      (mkDocxRequest (replace SPACE (lit "_") (topic request))
         (objectives request) (guide request) (upload_summary request))
    = Ok resp' /\
    sr_headers resp' = sr_headers resp.
Proof.
  do 2 eexists.
  exists (List.map (fun c => if c =? SPACE then UNDERSCORE else c)
            (topic request)).
  split; [now apply generate_docx_accepted|]. split; [reflexivity|].
  split; [apply length_map|].
  split; [|split; [now apply generate_docx_accepted|]].
  - intros Hin. apply in_map_iff in Hin as (c & Hc & _).
    destruct (N.eqb_spec c SPACE) as [_|Hne]; [discriminate Hc|].
    now apply Hne.
  - cbn [sr_headers Spec.response_of topic].
    unfold Spec.attachment_filename.
    change (lit "_") with [UNDERSCORE]. rewrite replace_map, map_map.
    do 4 f_equal. apply map_ext. intros c.
    destruct (N.eqb_spec c SPACE) as [_|Hne]; [reflexivity|].
    apply N.eqb_neq in Hne. now rewrite Hne.
Qed.

(** X21 at the topic "My Plan". *)
Lemma X21_no_space_in_filename_witness :
  exists resp resp' stem,
    generate_docx host ∅ plan_request = Ok resp /\
    sr_headers resp
    = [(lit "Content-Disposition",
        lit "attachment; filename=" ++ stem ++ lit "_Recovery_Guide.docx")] /\
    length stem = length (topic plan_request) /\
    ~ In SPACE stem /\
    generate_docx host ∅
      (mkDocxRequest (replace SPACE (lit "_") (topic plan_request))
         (objectives plan_request) (guide plan_request)
         (upload_summary plan_request))
    = Ok resp' /\
    sr_headers resp' = sr_headers resp.
Proof.
  apply (X21_no_space_in_filename host ∅ plan_request).
  - reflexivity.
  - reflexivity.
Defined.

(** X27. An upload can put the logo in place: when the joined path of
    an upload is opened and reaches the file of the logo path, the logo
    exists afterwards; uploaded bytes that the library does not read as
    an image make every later request for a document fail with the
    exception of the library, and bytes that it reads are the picture
    at the head of every later document. *)
Theorem X27_upload_reaches_logo env fs file logo
    (Hupload : Os.writable env (Os.path_join UPLOAD_FOLDER (filename file))
               = Some logo)
    (Hlogo : locate env (Os.path_join STATIC_FOLDER (lit "logo.png"))
             = Some logo)
    (Hdir : is_dir env (Os.path_join STATIC_FOLDER (lit "logo.png")) = false)
    (Hread : may_read env logo = true) :
  Os.path_exists env (fst (upload_doc env fs file))
    (Os.path_join STATIC_FOLDER (lit "logo.png")) = true /\
  match image_error env (file_bytes file) with
  | Some e =>
      forall request,
        generate_docx env (fst (upload_doc env fs file)) request = Raise e
  | None =>
      forall request resp,
        generate_docx env (fst (upload_doc env fs file)) request = Ok resp ->
        exists rest,
          d_body (sr_content resp)
          = mkParagraph None None
              [mkRun [Picture (file_bytes file) (Inches 2)] None None]
            :: rest
  end.
Proof.
  change (Os.path_join STATIC_FOLDER (lit "logo.png")) with Spec.logo_path
    in *.
  rewrite upload_doc_cases, Hupload. cbn [fst].
  assert (Hexists : Os.path_exists env (<[logo:=file_bytes file]> fs)
                      Spec.logo_path = true).
  { unfold Os.path_exists. rewrite Hdir, Hlogo, lookup_insert_eq.
    reflexivity. }
  assert (Hpart : Spec.logo_part env (<[logo:=file_bytes file]> fs)
                  = match image_error env (file_bytes file) with
                    | Some e => Raise e
                    | None => Ok [Spec.logo_paragraph (file_bytes file)]
                    end).
  { unfold Spec.logo_part. rewrite Hexists. unfold Os.read_file.
    now rewrite Hdir, Hlogo, lookup_insert_eq, Hread. }
  split; [exact Hexists|].
  destruct (image_error env (file_bytes file)) as [e|].
  - intros request. now rewrite generate_docx_cases, Hpart.
  - intros request resp Hresp.
    apply generate_docx_inv in Hresp as [_ ->].
    unfold Spec.logo_paragraphs. rewrite Hpart.
    eexists. reflexivity.
Qed.

(** X27 at the upload of one byte under the name "../static/logo.png":
    no document after it. *)
Lemma X27_upload_reaches_logo_witness :
  Os.path_exists host
    (fst (upload_doc host ∅ (mkUploadFile (lit "../static/logo.png") [x61])))
    (Os.path_join STATIC_FOLDER (lit "logo.png")) = true /\
  forall request,
    generate_docx host
      (fst (upload_doc host ∅ (mkUploadFile (lit "../static/logo.png") [x61])))
      request
    = Raise (Exc (lit "UnrecognizedImageError") (lit "")).
Proof.
  apply (X27_upload_reaches_logo host ∅
           (mkUploadFile (lit "../static/logo.png") [x61])
           (lit "/srv/app/static/logo.png"));
    reflexivity.
Defined.

(** X28. A topic with a character above U+00FF never gets a response,
    on any host; when the logo and the texts are in order the exception
    is the one of the encoding of the header, raised after the document
    was assembled. *)
Theorem X28_topic_outside_latin1 env fs request c
    (Hin : In c (topic request)) (Hc : 255 < c) :
  (exists e, generate_docx env fs request = Raise e) /\
  (forall logo,
     Spec.logo_part env fs = Ok logo ->
     Spec.refusal env (Spec.texts request) = None ->
     generate_docx env fs request = Raise UnicodeEncodeError).
Proof.
  assert (H : Spec.latin1 (topic request) = false).
  { destruct (Spec.latin1 (topic request)) eqn:E; [|reflexivity].
    unfold Spec.latin1 in E. rewrite forallb_forall in E.
    specialize (E c Hin). apply N.ltb_lt in E. lia. }
  split; [now apply generate_docx_not_latin1|].
  intros logo Hlogo Htexts.
  now rewrite generate_docx_cases, Hlogo, Htexts, H.
Qed.

(** X28 at the topic "P–Q". *)
Lemma X28_topic_outside_latin1_witness :
  (exists e,
     generate_docx host ∅ (mkDocxRequest dash_topic [] [] None) = Raise e) /\
  (forall logo,
     Spec.logo_part host ∅ = Ok logo ->
     Spec.refusal host (Spec.texts (mkDocxRequest dash_topic [] [] None))
     = None ->
     generate_docx host ∅ (mkDocxRequest dash_topic [] [] None)
     = Raise UnicodeEncodeError).
Proof.
  apply (X28_topic_outside_latin1 host ∅
           (mkDocxRequest dash_topic [] [] None) 8211).
  - simpl. tauto.
  - lia.
Defined.

(** X29. Which requests get a response: those for which the logo, when
    there is one, is read as an image, every text given to the library
    is taken, and every character of the topic is at most U+00FF. *)
Theorem X29_response_iff env fs request :
  (exists resp, generate_docx env fs request = Ok resp)
  <-> (exists logo, Spec.logo_part env fs = Ok logo) /\
      Spec.refusal env (Spec.texts request) = None /\
      Forall (fun c => c < 256) (topic request).
Proof.
  rewrite generate_docx_cases.
  assert (Hl : Spec.latin1 (topic request) = true
               <-> Forall (fun c => c < 256) (topic request)).
  { unfold Spec.latin1. rewrite forallb_forall, List.Forall_forall.
    split; intros H c Hc; apply N.ltb_lt; now apply H. }
  destruct (Spec.logo_part env fs) as [logo|e].
  - destruct (Spec.refusal env (Spec.texts request)) as [e|].
    + split; [intros [resp H]; discriminate H|].
      intros (_ & H & _). discriminate H.
    + destruct (Spec.latin1 (topic request)).
      * split; [|now eexists].
        intros _. split; [now eexists|]. split; [reflexivity|].
        now apply Hl.
      * split; [intros [resp H]; discriminate H|].
        intros (_ & _ & H). apply Hl in H. discriminate H.
  - split; [intros [resp H]; discriminate H|].
    intros ([logo H] & _). discriminate H.
Qed.

(** X29 at the request for "My Plan". *)
Lemma X29_response_iff_witness :
  exists resp, generate_docx host ∅ plan_request = Ok resp.
Proof.
  apply (proj2 (X29_response_iff host ∅ plan_request)).
  split; [now exists []|]. split; [reflexivity|].
  repeat (constructor; [reflexivity|]). constructor.
Defined.
(** ** The script [fix_requirements.py] *)

(** The run of the script, by the commands that succeed. *)
Lemma fix_requirements_cases executable spawn :
  snd (Script.fix_requirements executable spawn [])
  = (if Script.succeeded spawn (Script.cmd_venv executable) then
       if Script.succeeded spawn Script.cmd_upgrade then
         if Script.succeeded spawn Script.cmd_install then
           if Script.succeeded spawn Script.cmd_freeze then
             Script.full_run executable
           else firstn 9 (Script.full_run executable)
         else firstn 5 (Script.full_run executable)
       else firstn 4 (Script.full_run executable)
     else firstn 2 (Script.full_run executable)) /\
  (fst (Script.fix_requirements executable spawn []) = Ok tt
   <-> Script.succeeded spawn (Script.cmd_venv executable)
       && Script.succeeded spawn Script.cmd_upgrade
       && Script.succeeded spawn Script.cmd_install
       && Script.succeeded spawn Script.cmd_freeze = true).
Proof.
  unfold Script.fix_requirements, Script.succeeded, Script.bind,
    Script.subprocess_run, Script.with_open_w, Script.print.
  cbv zeta.
  change (Os.path_join (Os.path_join (lit "venv-fix") (lit "Scripts"))
            (lit "pip.exe")) with Script.pip.
  change [executable; lit "-m"; lit "venv"; lit "venv-fix"]
    with (Script.cmd_venv executable).
  change [Script.pip; lit "install"; lit "--upgrade"; lit "setuptools";
          lit "wheel"] with Script.cmd_upgrade.
  change [Script.pip; lit "install"; lit "-r"; lit "requirements.txt"]
    with Script.cmd_install.
  change [Script.pip; lit "freeze"] with Script.cmd_freeze.
  destruct (spawn (Script.cmd_venv executable)) as [[|?|?]|?];
    cbn [Z.eqb fst snd andb]; try (split; [reflexivity|split; discriminate]).
  destruct (spawn Script.cmd_upgrade) as [[|?|?]|?];
    cbn [Z.eqb fst snd andb]; try (split; [reflexivity|split; discriminate]).
  destruct (spawn Script.cmd_install) as [[|?|?]|?];
    cbn [Z.eqb fst snd andb]; try (split; [reflexivity|split; discriminate]).
  destruct (spawn Script.cmd_freeze) as [[|?|?]|?];
    cbn [Z.eqb fst snd andb]; try (split; [reflexivity|split; discriminate]).
  split; [reflexivity|split; reflexivity].
Qed.

Lemma succeeded_iff spawn argv :
  Script.succeeded spawn argv = true <-> spawn argv = Ok 0%Z.
Proof.
  unfold Script.succeeded. destruct (spawn argv) as [code|e].
  - split; [intros H; apply Z.eqb_eq in H; now subst|].
    intros H. injection H as ->. reflexivity.
  - split; discriminate.
Qed.

(** X22. Whatever the commands do, the script does a first part of what
    it does when all goes well, in that order and nothing else; it
    finishes without an exception exactly when it did all of it, and the
    line "All done!" is printed in that case only. *)
Theorem X22_script_runs_a_prefix executable spawn :
  exists rest,
    Script.full_run executable
    = snd (Script.fix_requirements executable spawn []) ++ rest /\
    (fst (Script.fix_requirements executable spawn []) = Ok tt
     <-> rest = []) /\
    (In (Script.Printed ([9989] ++ lit " All done! Please rename 'requirements-fixed.txt' to 'requirements.txt' and redeploy."))
        (snd (Script.fix_requirements executable spawn []))
     <-> fst (Script.fix_requirements executable spawn []) = Ok tt).
Proof.
  destruct (fix_requirements_cases executable spawn) as [Htrace Hok].
  rewrite Htrace. clear Htrace.
  destruct (Script.succeeded spawn (Script.cmd_venv executable));
    [destruct (Script.succeeded spawn Script.cmd_upgrade);
     [destruct (Script.succeeded spawn Script.cmd_install);
      [destruct (Script.succeeded spawn Script.cmd_freeze)|]|]|];
    cbn [andb] in Hok.
  1: exists []; rewrite Hok; split; [now rewrite app_nil_r|]; split;
       [tauto|split; [reflexivity|intros _; cbn; tauto]].
  all: eexists; rewrite Hok; split; [symmetry; apply firstn_skipn|];
    split; [split; intros H; cbn in H; discriminate H|];
    split; [|discriminate];
    cbn; intros H;
    repeat match type of H with
           | _ \/ _ => destruct H as [H|H]; [discriminate H|]
           end;
    destruct H.
Qed.

(** X23. The script finishes without an exception exactly when all four
    commands return 0: the creation of the environment, the upgrade of
    setuptools and wheel, the installation of the requirements and the
    freeze. *)
Theorem X23_script_succeeds_iff executable spawn :
  fst (Script.fix_requirements executable spawn []) = Ok tt
  <-> spawn [executable; lit "-m"; lit "venv"; lit "venv-fix"] = Ok 0%Z /\
      spawn [lit "venv-fix/Scripts/pip.exe"; lit "install"; lit "--upgrade";
             lit "setuptools"; lit "wheel"] = Ok 0%Z /\
      spawn [lit "venv-fix/Scripts/pip.exe"; lit "install"; lit "-r";
             lit "requirements.txt"] = Ok 0%Z /\
      spawn [lit "venv-fix/Scripts/pip.exe"; lit "freeze"] = Ok 0%Z.
Proof.
  destruct (fix_requirements_cases executable spawn) as [_ Hok].
  rewrite Hok, !andb_true_iff, !succeeded_iff.
  unfold Script.cmd_venv, Script.cmd_upgrade, Script.cmd_install,
    Script.cmd_freeze, Script.pip.
  tauto.
Qed.

(** X24. A command is started only when the commands before it returned
    0: the requirements are installed only into an environment that was
    created and upgraded, and the freeze is taken only after the
    installation went through. *)
Theorem X24_script_stops_at_first_failure executable spawn :
  (In (Script.Ran Script.cmd_upgrade None)
      (snd (Script.fix_requirements executable spawn [])) ->
   spawn (Script.cmd_venv executable) = Ok 0%Z) /\
  (In (Script.Ran Script.cmd_install None)
      (snd (Script.fix_requirements executable spawn [])) ->
   spawn (Script.cmd_venv executable) = Ok 0%Z /\
   spawn Script.cmd_upgrade = Ok 0%Z) /\
  (In (Script.Ran Script.cmd_freeze (Some (lit "requirements-fixed.txt")))
      (snd (Script.fix_requirements executable spawn [])) ->
   spawn (Script.cmd_venv executable) = Ok 0%Z /\
   spawn Script.cmd_upgrade = Ok 0%Z /\
   spawn Script.cmd_install = Ok 0%Z).
Proof.
  destruct (fix_requirements_cases executable spawn) as [-> _].
  rewrite <- !succeeded_iff.
  destruct (Script.succeeded spawn (Script.cmd_venv executable));
    [destruct (Script.succeeded spawn Script.cmd_upgrade);
     [destruct (Script.succeeded spawn Script.cmd_install);
      [destruct (Script.succeeded spawn Script.cmd_freeze)|]|]|].
  all: split; [|split]; intros H;
    first [ solve [repeat split; reflexivity]
          | exfalso; cbn in H;
            repeat match type of H with
                   | _ \/ _ => destruct H as [H|H]; [discriminate H|]
                   end;
            destruct H ].
Qed.

(** X24 at a run in which every command returns 0. *)
Lemma X24_script_stops_at_first_failure_witness :
  (fun _ : list str => Ok 0%Z) (Script.cmd_venv (lit "python")) = Ok 0%Z /\
  (fun _ : list str => Ok 0%Z) Script.cmd_upgrade = Ok 0%Z.
Proof.
  apply (proj1 (proj2 (X24_script_stops_at_first_failure (lit "python")
                         (fun _ => Ok 0%Z)))).
  vm_compute. do 4 right. left. reflexivity.
Defined.

(** X25. The script opens one file only, "requirements-fixed.txt", and
    closes it again, also when the freeze fails; "requirements.txt" is
    never opened by it, and only the freeze writes to the opened file. *)
Theorem X25_script_files executable spawn :
  (forall path,
     In (Script.Opened path) (snd (Script.fix_requirements executable spawn [])) ->
     path = lit "requirements-fixed.txt" /\
     In (Script.Closed path) (snd (Script.fix_requirements executable spawn []))) /\
  ~ In (Script.Opened (lit "requirements.txt"))
      (snd (Script.fix_requirements executable spawn [])) /\
  (forall argv path,
     In (Script.Ran argv (Some path))
        (snd (Script.fix_requirements executable spawn [])) ->
     argv = Script.cmd_freeze /\ path = lit "requirements-fixed.txt").
Proof.
  destruct (fix_requirements_cases executable spawn) as [-> _].
  destruct (Script.succeeded spawn (Script.cmd_venv executable));
    [destruct (Script.succeeded spawn Script.cmd_upgrade);
     [destruct (Script.succeeded spawn Script.cmd_install);
      [destruct (Script.succeeded spawn Script.cmd_freeze)|]|]|].
  all: split; [intros path H|split; [intros H|intros argv path H]].
  all: vm_compute in H;
    repeat match type of H with
           | _ \/ _ =>
               destruct H as [H|H];
               [first [ discriminate H
                      | injection H as <-;
                        split; [reflexivity|vm_compute; tauto]
                      | injection H as <- <-; split; reflexivity ]
               |]
           end;
    destruct H.
Qed.

(** X25 at a run in which the freeze fails. *)
Lemma X25_script_files_witness :
  lit "requirements-fixed.txt" = lit "requirements-fixed.txt" /\
  In (Script.Closed (lit "requirements-fixed.txt"))
    (snd (Script.fix_requirements (lit "python")
            (fun argv => if bool_decide (argv = Script.cmd_freeze)
                         then Ok 1%Z else Ok 0%Z) [])).
Proof.
  apply (proj1 (X25_script_files (lit "python")
                  (fun argv => if bool_decide (argv = Script.cmd_freeze)
                               then Ok 1%Z else Ok 0%Z))
           (lit "requirements-fixed.txt")).
  vm_compute. do 6 right. left. reflexivity.
Defined.
